(** * FlaskJobTracker: a shallow embedding of [app/app.py]

    The application is a Flask module with one SQLAlchemy model ([Job]),
    one WTForms form ([JobForm]) and eight view functions.  The embedding
    follows the module top to bottom:

    - [Utf8]      text: strings hold the UTF-8 bytes of a Python [str];
    - [Py]        the few Python string operations the validators use;
    - [Datetime]  [datetime.date] and [strptime] for the format [%Y-%m-%d];
    - [MultiDict] the request's decoded query string and body;
    - [Job]       the model class, one record per table row;
    - [Db]        the [job] table and the queries the views issue;
    - [JobForm]   field processing and validation as WTForms runs them;
    - [App]       the view functions, the URL map and request dispatch;
    - [Urls]      the URLs the views redirect to.

    The table is a list of rows in insertion (rowid) order; every view is a
    function from the table to a response and the table after the request. *)

From Stdlib Require Import ZArith List String Ascii Bool Lia Sorted Permutation.
From Stdlib Require Import DecimalString DecimalPos.
From stdpp Require Import base option list gmap strings.

Import ListNotations.
Local Open Scope string_scope.
Local Open Scope list_scope.
Local Open Scope Z_scope.

(* ===================================================================== *)
(** ** Text *)
(* ===================================================================== *)

Module Utf8.

(** A [string] of this development holds the UTF-8 bytes of a Python
    [str], as a string literal of Rocq does; [decode] reads the code
    points back.  No [str] yields bytes that are not UTF-8; of those, a
    byte that can start no sequence reads as the code point of its own
    number, and a sequence cut short or out of range as U+FFFD. *)
Definition replacement : N := 65533.

Inductive step :=
| Emit (cp : N)
| Expect (need : nat) (acc lowest : N).

(** The first byte of a sequence: the code point itself, or how many
    bytes follow, the bits read so far, and the least code point a
    sequence of that length may encode. *)
Definition lead (b : N) : step :=
  if (b <? 128)%N then Emit b
  else if ((194 <=? b) && (b <? 224))%N then Expect 1 (b - 192) 128
  else if ((224 <=? b) && (b <? 240))%N then Expect 2 (b - 224) 2048
  else if ((240 <=? b) && (b <? 245))%N then Expect 3 (b - 240) 65536
  else Emit b.

Definition scalar (cp lowest : N) : N :=
  if ((lowest <=? cp) && (cp <=? 1114111)
      && negb ((55296 <=? cp) && (cp <=? 57343)))%N
  then cp else replacement.

Fixpoint decode_from (need : nat) (acc lowest : N) (s : string) : list N :=
  match s with
  | EmptyString => match need with O => [] | S _ => [replacement] end
  | String c s' =>
      let b := N_of_ascii c in
      match need with
      | O =>
          match lead b with
          | Emit cp => cp :: decode_from 0 0 0 s'
          | Expect n a l => decode_from n a l s'
          end
      | S k =>
          if ((128 <=? b) && (b <? 192))%N then
            match k with
            | O => scalar (64 * acc + (b - 128)) lowest
                   :: decode_from 0 0 0 s'
            | S _ => decode_from k (64 * acc + (b - 128)) lowest s'
            end
          else
            replacement
            :: match lead b with
               | Emit cp => cp :: decode_from 0 0 0 s'
               | Expect n a l => decode_from n a l s'
               end
      end
  end.

Definition decode (s : string) : list N := decode_from 0 0 0 s.

Definition encode_point (cp : N) (rest : string) : string :=
  if (cp <? 128)%N then String (ascii_of_N cp) rest
  else if (cp <? 2048)%N then
    String (ascii_of_N (192 + cp / 64))
      (String (ascii_of_N (128 + cp mod 64)) rest)
  else if (cp <? 65536)%N then
    String (ascii_of_N (224 + cp / 4096))
      (String (ascii_of_N (128 + (cp / 64) mod 64))
         (String (ascii_of_N (128 + cp mod 64)) rest))
  else
    String (ascii_of_N (240 + cp / 262144))
      (String (ascii_of_N (128 + (cp / 4096) mod 64))
         (String (ascii_of_N (128 + (cp / 64) mod 64))
            (String (ascii_of_N (128 + cp mod 64)) rest))).

Definition encode (text : list N) : string :=
  fold_right encode_point EmptyString text.

End Utf8.

(* ===================================================================== *)
(** ** Python strings *)
(* ===================================================================== *)

Module Py.

(** [ch.isspace()] on a code point: the whitespace of the Unicode
    database, which is also what [str.strip()] removes. *)
Definition isspace (cp : N) : bool :=
  (((9 <=? cp) && (cp <=? 13)) || ((28 <=? cp) && (cp <=? 32))
   || (cp =? 133) || (cp =? 160) || (cp =? 5760)
   || ((8192 <=? cp) && (cp <=? 8202))
   || (cp =? 8232) || (cp =? 8233) || (cp =? 8239) || (cp =? 8287)
   || (cp =? 12288))%N.

Fixpoint lstrip (text : list N) : list N :=
  match text with
  | [] => []
  | cp :: text' => if isspace cp then lstrip text' else text
  end.

Definition rstrip (text : list N) : list N := rev (lstrip (rev text)).

(** [s.strip()] *)
Definition strip (s : string) : string :=
  Utf8.encode (rstrip (lstrip (Utf8.decode s))).

(** [bool(s)] for a [str]. *)
Definition truthy (s : string) : bool :=
  match s with
  | EmptyString => false
  | String _ _ => true
  end.

(** [sep.join(items)] *)
Fixpoint join (sep : string) (items : list string) : string :=
  match items with
  | [] => EmptyString
  | [x] => x
  | x :: rest => String.append x (String.append sep (join sep rest))
  end.

(** Every character of [s] is whitespace (also when [s] is empty). *)
Definition blank (s : string) : bool := forallb isspace (Utf8.decode s).

End Py.

(* ===================================================================== *)
(** ** [datetime.date] *)
(* ===================================================================== *)

Module Datetime.

Record date := mkdate { year : Z; month : Z; day : Z }.

Definition is_leap (y : Z) : bool :=
  (y mod 4 =? 0) && (negb (y mod 100 =? 0) || (y mod 400 =? 0)).

Definition days_in_month (y m : Z) : Z :=
  if m =? 2 then (if is_leap y then 29 else 28)
  else if (m =? 4) || (m =? 6) || (m =? 9) || (m =? 11) then 30
  else 31.

(** [datetime.date(y, m, d)]; [None] stands for the [ValueError] raised
    when a component is out of range ([MINYEAR = 1], [MAXYEAR = 9999]). *)
Definition new (y m d : Z) : option date :=
  if (1 <=? y) && (y <=? 9999) && (1 <=? m) && (m <=? 12)
     && (1 <=? d) && (d <=? days_in_month y m)
  then Some (mkdate y m d)
  else None.

(** Comparison of dates, the order [ORDER BY application_date] uses. *)
Definition leb (a b : date) : bool :=
  (year a <? year b)
  || ((year a =? year b)
      && ((month a <? month b)
          || ((month a =? month b) && (day a <=? day b)))).

Definition eqb (a b : date) : bool :=
  (year a =? year b) && (month a =? month b) && (day a =? day b).

(** *** Decimal digits

    [\d] in a pattern and [int()] on a string take every character with
    the decimal property of the Unicode database, not the ten ASCII
    digits only.  The digits come in runs of ten, zero first; this is the
    list of the zeros (Unicode 14.0, the database of Python 3.11). *)
Definition decimal_zeros : list N :=
  [
    48; 1632; 1776; 1984; 2406; 2534; 2662; 2790; 2918; 3046; 3174; 3302;
    3430; 3558; 3664; 3792; 3872; 4160; 4240; 6112; 6160; 6470; 6608;
    6784; 6800; 6992; 7088; 7232; 7248; 42528; 43216; 43264; 43472; 43504;
    43600; 44016; 65296; 66720; 68912; 69734; 69872; 69942; 70096; 70384;
    70736; 70864; 71248; 71360; 71472; 71904; 72016; 72784; 73040; 73120;
    92768; 92864; 93008; 120782; 120792; 120802; 120812; 120822; 123200;
    123632; 125264; 130032
  ]%N.

(** The value of a decimal digit, [None] for any other character. *)
Definition decimal (cp : N) : option Z :=
  match List.find (fun zero => ((zero <=? cp) && (cp <=? zero + 9))%N)
          decimal_zeros with
  | Some zero => Some (Z.of_N (cp - zero))
  | None => None
  end.

(** A class [[lo-hi]] of ASCII digits. *)
Definition digit_in (lo hi : Z) (cp : N) : option Z :=
  let n := Z.of_N cp - 48 in
  if (lo <=? n) && (n <=? hi) then Some n else None.

(** *** [strptime(s, "%Y-%m-%d")]

    [_strptime] compiles the format to the regular expression
    [(?P<Y>\d\d\d\d)-(?P<m>1[0-2]|0[1-9]|[1-9])-(?P<d>3[0-1]|[1-2]\d|0[1-9]|[1-9]| [1-9])],
    matches it at the start of the string, and raises [ValueError] when
    the match fails or leaves characters unconsumed.  Each group is a
    function to the list of its matches in the order the regex engine
    tries them; the first complete match is the one [re.match] returns.
    The groups are read with [int()]. *)

Definition chars := list N.

(** [\d\d\d\d] *)
Definition re_Y (s : chars) : list (Z * chars) :=
  match s with
  | a :: b :: c :: d :: rest =>
      match decimal a, decimal b, decimal c, decimal d with
      | Some a, Some b, Some c, Some d =>
          [(1000 * a + 100 * b + 10 * c + d, rest)]
      | _, _, _, _ => []
      end
  | _ => []
  end.

(** Two characters, the first a digit in [l1..h1], the second in [l2..h2]. *)
Definition two (l1 h1 l2 h2 : Z) (s : chars) : list (Z * chars) :=
  match s with
  | a :: b :: rest =>
      match digit_in l1 h1 a, digit_in l2 h2 b with
      | Some a, Some b => [(10 * a + b, rest)]
      | _, _ => []
      end
  | _ => []
  end.

(** A digit in [l1..h1], then [\d]. *)
Definition then_decimal (l1 h1 : Z) (s : chars) : list (Z * chars) :=
  match s with
  | a :: b :: rest =>
      match digit_in l1 h1 a, decimal b with
      | Some a, Some b => [(10 * a + b, rest)]
      | _, _ => []
      end
  | _ => []
  end.

(** One digit in [1..9]. *)
Definition one (s : chars) : list (Z * chars) :=
  match s with
  | a :: rest =>
      match digit_in 1 9 a with
      | Some a => [(a, rest)]
      | None => []
      end
  | _ => []
  end.

(** A space, then one digit in [1..9]. *)
Definition space_one (s : chars) : list (Z * chars) :=
  match s with
  | sp :: rest => if (sp =? 32)%N then one rest else []
  | _ => []
  end.

(** [1[0-2]|0[1-9]|[1-9]] *)
Definition re_m (s : chars) : list (Z * chars) :=
  two 1 1 0 2 s ++ two 0 0 1 9 s ++ one s.

(** [3[0-1]|[1-2]\d|0[1-9]|[1-9]| [1-9]] *)
Definition re_d (s : chars) : list (Z * chars) :=
  two 3 3 0 1 s ++ then_decimal 1 2 s ++ two 0 0 1 9 s ++ one s
  ++ space_one s.

(** The literal [-]. *)
Definition dash (s : chars) : list chars :=
  match s with
  | c :: rest => if (c =? 45)%N then [rest] else []
  | [] => []
  end.

(** All matches of the whole expression, first choice first. *)
Definition re_matches (s : chars) : list (Z * Z * Z * chars) :=
  '(y, s1) ← re_Y s;
  s2 ← dash s1;
  '(m, s3) ← re_m s2;
  s4 ← dash s3;
  '(d, s5) ← re_d s4;
  [(y, m, d, s5)].

Definition strptime (s : string) : option date :=
  match re_matches (Utf8.decode s) with
  | (y, m, d, rest) :: _ =>
      match rest with
      | [] => new y m d
      | _ :: _ => None          (* unconverted data remains *)
      end
  | [] => None                  (* does not match the format *)
  end.

End Datetime.

(* ===================================================================== *)
(** ** [werkzeug.datastructures.MultiDict] *)
(* ===================================================================== *)

Module MultiDict.

(** [request.args] and [request.form]: the decoded pairs in the order
    they were sent; a key may occur more than once. *)
Definition t := list (string * string).

(** [d.getlist(key)]: every value sent under [key], [[]] when none. *)
Definition getlist (key : string) (d : t) : list string :=
  map snd (List.filter (fun kv => String.eqb (fst kv) key) d).

(** [d.get(key)]: the first value, [None] when the key is absent. *)
Definition get (key : string) (d : t) : option string :=
  head (getlist key d).

(** [key in d] *)
Definition contains (key : string) (d : t) : bool :=
  match getlist key d with
  | [] => false
  | _ :: _ => true
  end.

End MultiDict.

(* ===================================================================== *)
(** ** The model class [Job] *)
(* ===================================================================== *)

(** [db.DateTime] values, as seconds since the epoch. *)
Definition timestamp := Z.

Module Job.

(** One row of the [job] table.  The five columns declared
    [nullable=False] hold plain values, the others an [option]
    ([None] is SQL [NULL]). *)
Record t := mk {
  id : Z;
  application_date : Datetime.date;
  status : string;
  company : string;
  position : string;
  resume_used : string;
  job_url : option string;
  job_description : option string;
  notes : option string;
  salary : option string;
  created_at : option timestamp
}.

End Job.

(* ===================================================================== *)
(** ** The [job] table and its queries *)
(* ===================================================================== *)

Module Db.

(** The rows of the table in insertion order. *)
Definition table := list Job.t.

(** What a view hands to the session: the keyword arguments of [Job(...)],
    or the attributes assigned to a loaded [job], each possibly [None]. *)
Record values := mk_values {
  v_application_date : option Datetime.date;
  v_status : option string;
  v_company : option string;
  v_position : option string;
  v_resume_used : option string;
  v_job_url : option string;
  v_job_description : option string;
  v_notes : option string;
  v_salary : option string
}.

(** Errors the session raises: [IntegrityError] from
    [db.session.commit()], [OverflowError] from a query parameter that
    is no SQLite integer. *)
Inductive error := IntegrityError | OverflowError.

(** [Job.query.count()] *)
Definition count (rows : table) : nat := length rows.

(** [Job.query.filter_by(status=s)] *)
Definition filter_by_status (s : string) (rows : table) : table :=
  List.filter (fun r => String.eqb (Job.status r) s) rows.

(** [ORDER BY application_date DESC].  The rows are scanned in rowid order
    and each is placed in front of the first row that is not more recent
    than it, scanning from the last row back: rows with the same date
    keep their rowid order, which is the order the engine's sorter gives
    them when the query names no second key. *)
Fixpoint place (r : Job.t) (sorted : table) : table :=
  match sorted with
  | [] => [r]
  | x :: rest =>
      if Datetime.leb (Job.application_date x) (Job.application_date r)
      then r :: x :: rest
      else x :: place r rest
  end.

Fixpoint order_by_application_date_desc (rows : table) : table :=
  match rows with
  | [] => []
  | r :: rest => place r (order_by_application_date_desc rest)
  end.

(** [.limit(n)] *)
Definition limit (n : nat) (rows : table) : table := firstn n rows.

(** [Job.query.get(job_id)]: the row with that primary key. *)
Definition get (job_id : Z) (rows : table) : option Job.t :=
  List.find (fun r => Job.id r =? job_id) rows.

(** SQLite integers are signed and 64 bits wide. *)
Definition int64 (n : Z) : bool :=
  (-9223372036854775808 <=? n) && (n <=? 9223372036854775807).

(** [Job.query.get_or_404(job_id)].  A table holds 64-bit ids only, so
    an id out of that range is found in none: the driver refuses to bind
    it and the query raises [OverflowError] instead of reporting that
    there is no such row. *)
Inductive loaded :=
| Loaded (job : Job.t)
| Missing
| Raised (err : error).

Definition get_or_404 (job_id : Z) (rows : table) : loaded :=
  match get job_id rows with
  | Some job => Loaded job
  | None => if int64 job_id then Missing else Raised OverflowError
  end.

(** The rowid an [INSERT] without an explicit id receives: [1] in an
    empty table, otherwise one more than the largest rowid in use. *)
Fixpoint max_rowid (rows : table) : option Z :=
  match rows with
  | [] => None
  | r :: rest =>
      match max_rowid rest with
      | None => Some (Job.id r)
      | Some m => Some (Z.max (Job.id r) m)
      end
  end.

Definition next_rowid (rows : table) : Z :=
  match max_rowid rows with
  | None => 1
  | Some m => m + 1
  end.

(** The [NOT NULL] constraints of the five required columns. *)
Definition not_null (v : values)
  : option (Datetime.date * string * string * string * string) :=
  match v_application_date v, v_status v, v_company v,
        v_position v, v_resume_used v with
  | Some d, Some s, Some c, Some p, Some r => Some (d, s, c, p, r)
  | _, _, _, _, _ => None
  end.

(** [db.session.add(new_job); db.session.commit()] at server time [now]:
    the [INSERT] assigns the id and the [created_at] default. *)
Definition add_commit (now : timestamp) (v : values) (rows : table)
  : table + error :=
  match not_null v with
  | Some (d, s, c, p, r) =>
      inl (rows ++ [Job.mk (next_rowid rows) d s c p r
                      (v_job_url v) (v_job_description v)
                      (v_notes v) (v_salary v) (Some now)])
  | None => inr IntegrityError
  end.

(** The nine assignments of [job_edit] applied to one row. *)
Definition assign (d : Datetime.date) (s c p r : string) (v : values)
    (job : Job.t) : Job.t :=
  Job.mk (Job.id job) d s c p r
    (v_job_url v) (v_job_description v) (v_notes v) (v_salary v)
    (Job.created_at job).

(** The assignments to the loaded [job] followed by
    [db.session.commit()]: [UPDATE job SET ... WHERE job.id = job_id]. *)
Definition update_commit (job_id : Z) (v : values) (rows : table)
  : table + error :=
  match not_null v with
  | Some (d, s, c, p, r) =>
      inl (map (fun row => if Job.id row =? job_id
                           then assign d s c p r v row else row) rows)
  | None => inr IntegrityError
  end.

End Db.

(* ===================================================================== *)
(** ** Module constants and the request *)
(* ===================================================================== *)

Definition STATUS_CHOICES : list (string * string) :=
  [ ("Waiting for Response", "Waiting for Response");
    ("Interviewing", "Interviewing");
    ("Rejected Application", "Rejected Application");
    ("Ghosted Application", "Ghosted Application") ].

Definition RESUME_CHOICES : list (string * string) :=
  [ ("Default Resume", "Default Resume") ].

Module Request.

Inductive http_method := GET | HEAD | POST | PUT | PATCH | DELETE | OPTIONS.

(** What a view reads of [flask.request]: [args] the query string and
    [form] the fields of a form-encoded body (a request with file parts
    or a JSON body is outside the model).  [csrf_error] is the outcome of
    Flask-WTF's check of the submitted token against the session, which
    every [FlaskForm] runs on validation: [None] when the token is good,
    otherwise the message of the [ValidationError]. *)
Record t := mk {
  method : http_method;
  path : string;
  args : MultiDict.t;
  form : MultiDict.t;
  csrf_error : option string
}.

End Request.

(* ===================================================================== *)
(** ** [JobForm]: WTForms field processing and validation *)
(* ===================================================================== *)

Module JobForm.

(** The state of one bound field. *)
Record field (A : Type) := mk_field {
  data : option A;
  raw_data : list string;
  process_errors : list string;
  errors : list string
}.
Arguments mk_field {A}.
Arguments data {A}.
Arguments raw_data {A}.
Arguments process_errors {A}.
Arguments errors {A}.

(** [SUBMIT_METHODS] and [form.is_submitted()] *)
Definition is_submitted (req : Request.t) : bool :=
  match Request.method req with
  | Request.POST | Request.PUT | Request.PATCH | Request.DELETE => true
  | _ => false
  end.

(** [Meta.wrap_formdata]: the body of a submitted request when it has
    fields, otherwise no form data at all. *)
Definition wrap_formdata (req : Request.t) : option MultiDict.t :=
  if is_submitted req then
    match Request.form req with
    | [] => None
    | _ :: _ => Some (Request.form req)
    end
  else None.

(** [Field.process]'s lookup: the values sent under the field's name.
    Without form data [process_formdata] is not called; it does nothing
    on an empty list either, so both cases read as [[]]. *)
Definition raw_of (name : string) (formdata : option MultiDict.t)
  : list string :=
  match formdata with
  | Some d => MultiDict.getlist name d
  | None => []
  end.

(** [DateField.process]: the default first, then [process_formdata],
    which keeps the default when nothing was sent and otherwise parses
    the values joined by a space. *)
Definition process_date (default : option Datetime.date) (name : string)
    (formdata : option MultiDict.t) : field Datetime.date :=
  let raw := raw_of name formdata in
  match raw with
  | [] => mk_field default raw [] []
  | _ :: _ =>
      match Datetime.strptime (Py.join " " raw) with
      | Some d => mk_field (Some d) raw [] []
      | None => mk_field None raw ["Not a valid date value."] []
      end
  end.

(** [StringField.process], [TextAreaField.process] and, with the
    coercion [str], [SelectField.process]: the first value sent, the
    default ([None]) when there is none. *)
Definition process_text (name : string) (formdata : option MultiDict.t)
  : field string :=
  let raw := raw_of name formdata in
  mk_field (head raw) raw [] [].

(** What a validator does: return, raise [ValidationError], or raise
    [StopValidation] (after emptying [field.errors] when [clear]). *)
Inductive raised :=
| Return
| ValidationError (msg : string)
| StopValidation (clear : bool) (msg : option string).

Definition validator (A : Type) := field A -> raised.

(** [DataRequired]: [field.data and (not isinstance(field.data, str) or
    field.data.strip())]. *)
Definition DataRequired_date : validator Datetime.date :=
  fun f =>
    match data f with
    | Some _ => Return
    | None => StopValidation true (Some "This field is required.")
    end.

Definition DataRequired : validator string :=
  fun f =>
    match data f with
    | Some s =>
        if Py.truthy s && Py.truthy (Py.strip s) then Return
        else StopValidation true (Some "This field is required.")
    | None => StopValidation true (Some "This field is required.")
    end.

(** [Optional]: stops the chain, with no message, when nothing or only
    whitespace was sent. *)
Definition Optional : validator string :=
  fun f =>
    match raw_data f with
    | [] => StopValidation true None
    | s :: _ =>
        if Py.truthy (Py.strip s) then Return
        else StopValidation true None
    end.

(** [Field._run_validation_chain] *)
Fixpoint run_validation_chain {A} (f : field A) (errs : list string)
    (validators : list (validator A)) : list string :=
  match validators with
  | [] => errs
  | v :: rest =>
      match v f with
      | Return => run_validation_chain f errs rest
      | ValidationError msg => run_validation_chain f (errs ++ [msg]) rest
      | StopValidation clear msg =>
          (if clear then [] else errs)
          ++ match msg with Some m => [m] | None => [] end
      end
  end.

(** [SelectField.pre_validate]: the data must be the value of a choice. *)
Definition pre_validate_select (choices : list (string * string))
    (f : field string) : raised :=
  match data f with
  | Some s =>
      if existsb (fun ch => String.eqb (fst ch) s) choices then Return
      else ValidationError "Not a valid choice."
  | None => ValidationError "Not a valid choice."
  end.

(** [Field.validate]: start from the processing errors, run
    [pre_validate], then the validators. *)
Definition validate_field {A} (pre : field A -> raised)
    (validators : list (validator A)) (f : field A) : field A :=
  let errs0 := process_errors f in
  let errs :=
    match pre f with
    | Return => run_validation_chain f errs0 validators
    | ValidationError msg => run_validation_chain f (errs0 ++ [msg]) validators
    | StopValidation _ msg =>
        errs0 ++ match msg with Some m => [m] | None => [] end
    end in
  mk_field (data f) (raw_data f) (process_errors f) errs.

Definition no_pre {A} : field A -> raised := fun _ => Return.

(** The bound form.  [submit] carries no validator and no data the views
    read, and is left out; [csrf_token] is kept as its list of errors. *)
Record t := mk {
  application_date : field Datetime.date;
  status : field string;
  company : field string;
  position : field string;
  resume_used : field string;
  job_url : field string;
  job_description : field string;
  notes : field string;
  salary : field string;
  csrf_token : list string
}.

(** [JobForm()] inside a request, on the day [today]. *)
Definition bind (today : Datetime.date) (req : Request.t) : t :=
  let fd := wrap_formdata req in
  mk (process_date (Some today) "application_date" fd)
     (process_text "status" fd)
     (process_text "company" fd)
     (process_text "position" fd)
     (process_text "resume_used" fd)
     (process_text "job_url" fd)
     (process_text "job_description" fd)
     (process_text "notes" fd)
     (process_text "salary" fd)
     [].

(** [form.validate()]: every field is validated, none is skipped. *)
Definition validate (req : Request.t) (f : t) : t :=
  mk (validate_field no_pre [DataRequired_date] (application_date f))
     (validate_field (pre_validate_select STATUS_CHOICES) [] (status f))
     (validate_field no_pre [DataRequired] (company f))
     (validate_field no_pre [DataRequired] (position f))
     (validate_field (pre_validate_select RESUME_CHOICES) [DataRequired]
        (resume_used f))
     (validate_field no_pre [Optional] (job_url f))
     (validate_field no_pre [Optional] (job_description f))
     (validate_field no_pre [Optional] (notes f))
     (validate_field no_pre [Optional] (salary f))
     (match Request.csrf_error req with
      | Some msg => [msg]
      | None => []
      end).

Definition no_errors {A} (f : field A) : bool :=
  match errors f with [] => true | _ :: _ => false end.

(** The value [validate] returns: no field has an error. *)
Definition ok (f : t) : bool :=
  no_errors (application_date f) && no_errors (status f)
  && no_errors (company f) && no_errors (position f)
  && no_errors (resume_used f) && no_errors (job_url f)
  && no_errors (job_description f) && no_errors (notes f)
  && no_errors (salary f)
  && match csrf_token f with [] => true | _ :: _ => false end.

(** [form.validate_on_submit()]: the validated form and the verdict. *)
Definition validate_on_submit (req : Request.t) (f : t) : t * bool :=
  if is_submitted req then
    let f' := validate req f in (f', ok f')
  else (f, false).

(** The [.data] of the nine fields, as the views read them. *)
Definition values (f : t) : Db.values :=
  Db.mk_values (data (application_date f)) (data (status f))
    (data (company f)) (data (position f)) (data (resume_used f))
    (data (job_url f)) (data (job_description f)) (data (notes f))
    (data (salary f)).

Definition set_data {A} (v : option A) (f : field A) : field A :=
  mk_field v (raw_data f) (process_errors f) (errors f).

(** The nine assignments [form.<field>.data = job.<field>] of [job_edit]. *)
Definition populate (job : Job.t) (f : t) : t :=
  mk (set_data (Some (Job.application_date job)) (application_date f))
     (set_data (Some (Job.status job)) (status f))
     (set_data (Some (Job.company job)) (company f))
     (set_data (Some (Job.position job)) (position f))
     (set_data (Some (Job.resume_used job)) (resume_used f))
     (set_data (Job.job_url job) (job_url f))
     (set_data (Job.job_description job) (job_description f))
     (set_data (Job.notes job) (notes f))
     (set_data (Job.salary job) (salary f))
     (csrf_token f).

End JobForm.

(* ===================================================================== *)
(** ** The application: views, URL map, dispatch *)
(* ===================================================================== *)

Module App.

(** Exceptions a failing connection or query can raise.  The first two
    are instances of [Exception]; the last two derive from
    [BaseException] only. *)
Inductive exception :=
| OperationalError (msg : string)
| OtherException (cls : string)
| KeyboardInterrupt
| SystemExit.

Definition isinstance_Exception (e : exception) : bool :=
  match e with
  | OperationalError _ | OtherException _ => true
  | KeyboardInterrupt | SystemExit => false
  end.

Inductive outcome (A : Type) :=
| Returns (a : A)
| Raises (e : exception).
Arguments Returns {A}.
Arguments Raises {A}.

(** What a request sees of the world besides the table: the calendar
    day, the database clock, and how the [with db.engine.connect()]
    block of the readiness probe ends. *)
Record env := mk_env {
  today : Datetime.date;
  now : timestamp;
  select_1 : outcome unit
}.

Inductive location :=
| url_for_jobs
| url_for_job_details (job_id : Z).

(** The keyword arguments given to [render_template] (titles left out). *)
Inductive context :=
| dashboard_ctx (total_jobs : nat) (recent_jobs : list Job.t)
                (statuses : gmap string nat)
| jobs_ctx (jobs : list Job.t)
| add_job_ctx (form : JobForm.t)
| job_details_ctx (job : Job.t) (job_id : Z)
| edit_job_ctx (form : JobForm.t) (job : Job.t) (job_id : Z).

Inductive response :=
| render_template (template : string) (ctx : context)
| redirect (target : location)
| text (body : string) (code : Z)
| abort (code : Z)
| propagate (e : exception)
| send_static_file (filename : string)
| default_options_response
| without_body (r : response).

(** An exception of the session that no view catches: Flask answers 500. *)
Definition internal_server_error (e : Db.error) : response := abort 500.

(** The loop of [home] over [STATUS_CHOICES]. *)
Definition count_statuses (rows : Db.table) : gmap string nat :=
  foldl (fun (statuses : gmap string nat) status_choice =>
           let status := fst status_choice in
           let count := Db.count (Db.filter_by_status status rows) in
           if (0 <? count)%nat then <[status := count]> statuses
           else statuses)
        ∅ STATUS_CHOICES.

(** [@app.route('/')] *)
Definition home (rows : Db.table) : response * Db.table :=
  let total_jobs := Db.count rows in
  let recent_jobs := Db.limit 5 (Db.order_by_application_date_desc rows) in
  let statuses := count_statuses rows in
  (render_template "dashboard.html"
     (dashboard_ctx total_jobs recent_jobs statuses), rows).

(** [@app.route('/jobs')] *)
Definition jobs (req : Request.t) (rows : Db.table) : response * Db.table :=
  let status_filter := MultiDict.get "status" (Request.args req) in
  let all_jobs :=
    match status_filter with
    | Some s =>
        if Py.truthy s
        then Db.order_by_application_date_desc (Db.filter_by_status s rows)
        else Db.order_by_application_date_desc rows
    | None => Db.order_by_application_date_desc rows
    end in
  (render_template "jobs.html" (jobs_ctx all_jobs), rows).

(** [@app.route('/add-job', methods=["GET", "POST"])] *)
Definition add_job (e : env) (req : Request.t) (rows : Db.table)
  : response * Db.table :=
  let form := JobForm.bind (today e) req in
  let '(form, valid) := JobForm.validate_on_submit req form in
  if valid then
    match Db.add_commit (now e) (JobForm.values form) rows with
    | inl rows' => (redirect url_for_jobs, rows')
    | inr err => (internal_server_error err, rows)
    end
  else (render_template "add_job.html" (add_job_ctx form), rows).

(** [@app.route("/job/<int:job_id>")] *)
Definition job_details (job_id : Z) (rows : Db.table)
  : response * Db.table :=
  match Db.get_or_404 job_id rows with
  | Db.Loaded job =>
      (render_template "job_details.html" (job_details_ctx job job_id), rows)
  | Db.Missing => (abort 404, rows)
  | Db.Raised err => (internal_server_error err, rows)
  end.

(** [@app.route("/job/<int:job_id>/edit", methods=["GET", "POST"])] *)
Definition job_edit (e : env) (req : Request.t) (job_id : Z)
    (rows : Db.table) : response * Db.table :=
  match Db.get_or_404 job_id rows with
  | Db.Missing => (abort 404, rows)
  | Db.Raised err => (internal_server_error err, rows)
  | Db.Loaded job =>
      let form := JobForm.bind (today e) req in
      let '(form, valid) := JobForm.validate_on_submit req form in
      if valid then
        match Db.update_commit job_id (JobForm.values form) rows with
        | inl rows' => (redirect (url_for_job_details job_id), rows')
        | inr err => (internal_server_error err, rows)
        end
      else
        let form :=
          if negb (JobForm.is_submitted req) then JobForm.populate job form
          else form in
        (render_template "edit_job.html" (edit_job_ctx form job job_id),
         rows)
  end.

(** [@app.route("/testpage")] *)
Definition test_page (rows : Db.table) : response * Db.table :=
  (text "This page is only a test" 200, rows).

(** [@app.route("/healthz/live")] *)
Definition health_live (rows : Db.table) : response * Db.table :=
  (text "OK" 200, rows).

(** [@app.route("/healthz/readiness")]: [except Exception] catches the
    instances of [Exception] and lets anything else through. *)
Definition health_readiness (e : env) (rows : Db.table)
  : response * Db.table :=
  match select_1 e with
  | Returns _ => (text "OK" 200, rows)
  | Raises exc =>
      if isinstance_Exception exc then (text "Not Ready" 500, rows)
      else (propagate exc, rows)
  end.

(** The status line of a response: 200 for a rendered page, 302 for a
    redirect, the given code otherwise; an exception that leaves the view
    has none, and that of a static file is for the file system to say. *)
Fixpoint status_code (r : response) : option Z :=
  match r with
  | render_template _ _ => Some 200
  | redirect _ => Some 302
  | text _ code => Some code
  | abort code => Some code
  | propagate _ => None
  | send_static_file _ => None
  | default_options_response => Some 200
  | without_body r' => status_code r'
  end.

(** A response of the 5xx class. *)
Definition is_server_error (r : response) : bool :=
  match status_code r with
  | Some code => (500 <=? code) && (code <? 600)
  | None => false
  end.

(** *** The URL map *)

Inductive endpoint :=
| Home | Jobs | AddJob | JobDetails | JobEdit | TestPage
| HealthLive | HealthReadiness | Static.

Record rule := mk_rule {
  rule_string : string;
  methods : list Request.http_method;
  rule_endpoint : endpoint
}.

Definition method_eqb (a b : Request.http_method) : bool :=
  match a, b with
  | Request.GET, Request.GET | Request.HEAD, Request.HEAD
  | Request.POST, Request.POST | Request.PUT, Request.PUT
  | Request.PATCH, Request.PATCH | Request.DELETE, Request.DELETE
  | Request.OPTIONS, Request.OPTIONS => true
  | _, _ => false
  end.

(** The [@app.route] decorators of the module, in source order, with the
    methods each one declares ([GET] when it names none). *)
Definition decorated : list rule :=
  [ mk_rule "/" [Request.GET] Home;
    mk_rule "/jobs" [Request.GET] Jobs;
    mk_rule "/add-job" [Request.GET; Request.POST] AddJob;
    mk_rule "/job/<int:job_id>" [Request.GET] JobDetails;
    mk_rule "/job/<int:job_id>/edit" [Request.GET; Request.POST] JobEdit;
    mk_rule "/testpage" [Request.GET] TestPage;
    mk_rule "/healthz/live" [Request.GET] HealthLive;
    mk_rule "/healthz/readiness" [Request.GET] HealthReadiness ].

(** The rule [Flask(__name__)] registers for the files of the static
    folder. *)
Definition static_rule : rule :=
  mk_rule "/static/<path:filename>" [Request.GET] Static.

(** [app.add_url_rule]: a rule that answers [GET] answers [HEAD] too, and
    every rule answers [OPTIONS]. *)
Definition add_url_rule (r : rule) : rule :=
  mk_rule (rule_string r)
    (methods r
     ++ (if existsb (method_eqb Request.GET) (methods r)
         then [Request.HEAD] else [])
     ++ [Request.OPTIONS])
    (rule_endpoint r).

(** [app.url_map]: the static rule, then the rules of the decorators. *)
Definition url_map : list rule := map add_url_rule (static_rule :: decorated).

(** [s.split("/")] *)
Fixpoint segments (s : string) : list string :=
  match s with
  | EmptyString => [EmptyString]
  | String c s' =>
      if Ascii.eqb c "/"%char then EmptyString :: segments s'
      else match segments s' with
           | h :: t => String c h :: t
           | [] => [String c EmptyString]
           end
  end.

(** The [int] converter: [\d+], one or more decimal digits, read by
    [int()]. *)
Fixpoint int_of_digits (digits : list N) (acc : Z) : option Z :=
  match digits with
  | [] => Some acc
  | cp :: digits' =>
      match Datetime.decimal cp with
      | Some d => int_of_digits digits' (10 * acc + d)
      | None => None
      end
  end.

Definition int_converter (s : string) : option Z :=
  match Utf8.decode s with
  | [] => None
  | cp :: digits => int_of_digits (cp :: digits) 0
  end.

Definition is_int_part (part : string) : bool :=
  String.prefix "<int:" part.

Definition is_path_part (part : string) : bool :=
  String.prefix "<path:" part.

Fixpoint no_line_feed (s : string) : bool :=
  match s with
  | EmptyString => true
  | String c s' => negb (Ascii.eqb c "010"%char) && no_line_feed s'
  end.

(** The [path] converter: [[^/].*?] up to the end of the path, that is
    one character that is no slash, then any characters but line feeds. *)
Definition path_converter (s : string) : bool :=
  match s with
  | EmptyString => false
  | String c s' => negb (Ascii.eqb c "/"%char) && no_line_feed s'
  end.

(** Match the parts of a rule against the parts of a path, collecting
    the converted integers.  A [path] part takes the rest of the path. *)
Fixpoint match_parts (pattern path : list string) : option (list Z) :=
  match pattern, path with
  | [], [] => Some []
  | p :: pattern', s :: path' =>
      if is_path_part p then
        match pattern' with
        | [] => if path_converter (Py.join "/" (s :: path')) then Some []
                else None
        | _ :: _ => None
        end
      else if is_int_part p then
        match int_converter s, match_parts pattern' path' with
        | Some n, Some args => Some (n :: args)
        | _, _ => None
        end
      else if String.eqb p s then match_parts pattern' path'
      else None
  | _, _ => None
  end.

Inductive routed :=
| Found (e : endpoint) (view_args : list Z)
| NotFound
| MethodNotAllowed.

(** The first rule whose path and method both match; when only paths
    matched, [405], when nothing matched, [404].  A path is matched as it
    stands: the redirect Werkzeug answers to a path with doubled slashes
    whose merged form matches is not part of the model, and such a path
    counts as not found. *)
Fixpoint route_in (rules : list rule) (m : Request.http_method)
    (path : string) (path_seen : bool) : routed :=
  match rules with
  | [] => if path_seen then MethodNotAllowed else NotFound
  | r :: rest =>
      match match_parts (segments (rule_string r)) (segments path) with
      | Some args =>
          if existsb (method_eqb m) (methods r)
          then Found (rule_endpoint r) args
          else route_in rest m path true
      | None => route_in rest m path path_seen
      end
  end.

Definition route (m : Request.http_method) (path : string) : routed :=
  route_in url_map m path false.

(** The [filename] the static rule takes from a path: what follows
    [/static/]. *)
Definition static_filename (path : string) : string :=
  Py.join "/" (skipn 2 (segments path)).

(** [app.view_functions]: call the view of an endpoint with the converted
    integers; the static view serves its file from the static folder. *)
Definition call_view (e : env) (req : Request.t) (ep : endpoint)
    (view_args : list Z) (rows : Db.table) : response * Db.table :=
  match ep, view_args with
  | Home, [] => home rows
  | Jobs, [] => jobs req rows
  | AddJob, [] => add_job e req rows
  | JobDetails, [job_id] => job_details job_id rows
  | JobEdit, [job_id] => job_edit e req job_id rows
  | TestPage, [] => test_page rows
  | HealthLive, [] => health_live rows
  | HealthReadiness, [] => health_readiness e rows
  | Static, [] => (send_static_file (static_filename (Request.path req)), rows)
  | _, _ => (abort 500, rows)
  end.

(** One request against the table: [OPTIONS] is answered without the
    view, [HEAD] by the view with the body dropped. *)
Definition handle (e : env) (req : Request.t) (rows : Db.table)
  : response * Db.table :=
  match route (Request.method req) (Request.path req) with
  | Found ep view_args =>
      match Request.method req with
      | Request.OPTIONS => (default_options_response, rows)
      | Request.HEAD =>
          (without_body (fst (call_view e req ep view_args rows)),
           snd (call_view e req ep view_args rows))
      | _ => call_view e req ep view_args rows
      end
  | NotFound => (abort 404, rows)
  | MethodNotAllowed => (abort 405, rows)
  end.

(** The tables the application can be in: [create_tables()] makes the
    empty table, and every request moves it by [handle]. *)
Inductive reachable : Db.table -> Prop :=
| reachable_created : reachable []
| reachable_handled e req rows :
    reachable rows -> reachable (snd (handle e req rows)).

End App.

(* ===================================================================== *)
(** ** The statements under test, in the specification's words *)
(* ===================================================================== *)

Module Spec.

(** Values of an enumeration. *)
Definition enumerated (choices : list (string * string)) (s : string) : Prop :=
  In s (map fst choices).

(** The five required attributes of the data model. *)
Definition required_fields : list string :=
  ["application_date"; "status"; "company"; "position"; "resume_used"].

(** "A required field missing, or the status or resume_used field
    outside its closed enumeration." *)
Definition invalid_submission (form : MultiDict.t) : Prop :=
  (exists name, In name required_fields /\ MultiDict.get name form = None)
  \/ (exists s, MultiDict.get "status" form = Some s
                /\ ~ enumerated STATUS_CHOICES s)
  \/ (exists r, MultiDict.get "resume_used" form = Some r
                /\ ~ enumerated RESUME_CHOICES r).

(** The handler table of section 4.3, one rule per path, the record id
    written with the converter the routes use. *)
Definition handler_table : list App.rule :=
  [ App.mk_rule "/" [Request.GET] App.Home;
    App.mk_rule "/jobs" [Request.GET] App.Jobs;
    App.mk_rule "/add-job" [Request.GET; Request.POST] App.AddJob;
    App.mk_rule "/job/<int:job_id>" [Request.GET] App.JobDetails;
    App.mk_rule "/job/<int:job_id>/edit" [Request.GET; Request.POST]
      App.JobEdit;
    App.mk_rule "/healthz/live" [Request.GET] App.HealthLive;
    App.mk_rule "/healthz/readiness" [Request.GET] App.HealthReadiness ].

(** "If the query parameter status is present, exactly the records whose
    status equals that value are returned; if it is absent, every
    record." *)
Definition listed_as_claimed (args : MultiDict.t) (rows listed : Db.table)
  : Prop :=
  match MultiDict.get "status" args with
  | Some s => forall r, In r listed <-> In r rows /\ Job.status r = s
  | None => forall r, In r listed <-> In r rows
  end.

End Spec.

(** A submission the form accepts: the token is good, the date sent reads
    as [d], [status] and [resume_used] are values of their enumerations,
    [company] and [position] hold more than whitespace. *)
Record accepted (req : Request.t) (d : Datetime.date) (s c p r : string)
  : Prop := {
  acc_method : Request.method req = Request.POST;
  acc_csrf : Request.csrf_error req = None;
  acc_date :
    Datetime.strptime
      (Py.join " " (MultiDict.getlist "application_date" (Request.form req)))
    = Some d;
  acc_status : MultiDict.get "status" (Request.form req) = Some s;
  acc_status_enum : Spec.enumerated STATUS_CHOICES s;
  acc_company : MultiDict.get "company" (Request.form req) = Some c;
  acc_company_text : Py.blank c = false;
  acc_position : MultiDict.get "position" (Request.form req) = Some p;
  acc_position_text : Py.blank p = false;
  acc_resume : MultiDict.get "resume_used" (Request.form req) = Some r;
  acc_resume_enum : Spec.enumerated RESUME_CHOICES r
}.

(** A text field that is absent or holds only whitespace. *)
Definition absent_or_blank (name : string) (form : MultiDict.t) : Prop :=
  match MultiDict.get name form with
  | Some s => Py.blank s = true
  | None => True
  end.

(** A choice field that is absent or holds no value of [choices]. *)
Definition absent_or_foreign (choices : list (string * string))
    (name : string) (form : MultiDict.t) : Prop :=
  match MultiDict.get name form with
  | Some s => ~ Spec.enumerated choices s
  | None => True
  end.

(** A submission the form turns down. *)
Definition rejected (req : Request.t) : Prop :=
  Request.csrf_error req <> None
  \/ (MultiDict.getlist "application_date" (Request.form req) <> []
      /\ Datetime.strptime
           (Py.join " "
              (MultiDict.getlist "application_date" (Request.form req)))
         = None)
  \/ absent_or_foreign STATUS_CHOICES "status" (Request.form req)
  \/ absent_or_blank "company" (Request.form req)
  \/ absent_or_blank "position" (Request.form req)
  \/ absent_or_foreign RESUME_CHOICES "resume_used" (Request.form req).

(** The record a view stores for an accepted submission. *)
Definition stored (job_id : Z) (d : Datetime.date) (s c p r : string)
    (form : MultiDict.t) (created : option timestamp) : Job.t :=
  Job.mk job_id d s c p r
    (MultiDict.get "job_url" form) (MultiDict.get "job_description" form)
    (MultiDict.get "notes" form) (MultiDict.get "salary" form) created.

(** [b] is not more recent than [a]. *)
Definition not_before (a b : Job.t) : Prop :=
  Datetime.leb (Job.application_date b) (Job.application_date a) = true.

Definition dated (d : Datetime.date) (r : Job.t) : bool :=
  Datetime.eqb (Job.application_date r) d.

(** Every row carries a status of the enumeration. *)
Definition statuses_enumerated (rows : Db.table) : Prop :=
  Forall (fun r => Spec.enumerated STATUS_CHOICES (Job.status r)) rows.

(* ===================================================================== *)
(** ** Sample requests and tables *)
(* ===================================================================== *)

Module Sample.

(** The first of March 2024; the probe of the store succeeds. *)
Definition env : App.env :=
  App.mk_env (Datetime.mkdate 2024 3 1) 1709283600 (App.Returns tt).

(** The submission of the specification's example. *)
Definition acme_form : MultiDict.t :=
  [ ("application_date", "2024-01-15");
    ("status", "Interviewing");
    ("company", "Acme");
    ("position", "Engineer");
    ("resume_used", "Default Resume");
    ("submit", "Add Job") ].

(** The same submission without its [application_date] pair. *)
Definition undated_form : MultiDict.t :=
  [ ("status", "Interviewing");
    ("company", "Acme");
    ("position", "Engineer");
    ("resume_used", "Default Resume");
    ("submit", "Add Job") ].

(** The same submission with a company of two spaces. *)
Definition blank_company_form : MultiDict.t :=
  [ ("application_date", "2024-01-15");
    ("status", "Interviewing");
    ("company", "  ");
    ("position", "Engineer");
    ("resume_used", "Default Resume");
    ("submit", "Add Job") ].

(** An edit that moves the example to [Rejected Application]. *)
Definition rejection_form : MultiDict.t :=
  [ ("application_date", "2024-01-15");
    ("status", "Rejected Application");
    ("company", "Acme");
    ("position", "Engineer");
    ("resume_used", "Default Resume");
    ("notes", "No interview");
    ("submit", "Add Job") ].

(** A submission dated the fifth of March 2024. *)
Definition hooli_form : MultiDict.t :=
  [ ("application_date", "2024-03-05");
    ("status", "Waiting for Response");
    ("company", "Hooli");
    ("position", "Architect");
    ("resume_used", "Default Resume");
    ("salary", "120k");
    ("submit", "Add Job") ].

Definition post (path : string) (form : MultiDict.t) : Request.t :=
  Request.mk Request.POST path [] form None.

Definition get (path : string) (args : MultiDict.t) : Request.t :=
  Request.mk Request.GET path args [] None.

(** The row the example leaves in an empty table. *)
Definition acme : Job.t :=
  Job.mk 1 (Datetime.mkdate 2024 1 15) "Interviewing" "Acme" "Engineer"
    "Default Resume" None None None None (Some 1709283600).

Definition globex : Job.t :=
  Job.mk 2 (Datetime.mkdate 2024 1 15) "Waiting for Response" "Globex"
    "Analyst" "Default Resume" (Some "https://globex.example/jobs/7")
    None None (Some "90k") (Some 1709283700).

Definition initech : Job.t :=
  Job.mk 3 (Datetime.mkdate 2024 2 20) "Interviewing" "Initech"
    "Developer" "Default Resume" None None None None (Some 1709283800).

Definition three_rows : Db.table := [acme; globex; initech].

End Sample.

(* ===================================================================== *)
(** ** Redirect targets *)
(* ===================================================================== *)

Module Urls.

(** [str(n)] for an [int]. *)
Definition str (n : Z) : string := NilEmpty.string_of_int (Z.to_int n).

(** [url_for('jobs')] and [url_for('job_details', job_id=n)], built from
    the rules of the two endpoints. *)
Definition url_for (target : App.location) : string :=
  match target with
  | App.url_for_jobs => "/jobs"
  | App.url_for_job_details job_id => String.append "/job/" (str job_id)
  end.

(** The request a client makes when it follows a redirect. *)
Definition follow (target : App.location) : Request.t :=
  Request.mk Request.GET (url_for target) [] [] None.

End Urls.

(* ===================================================================== *)
(** ** Invariants and effects of a request *)
(* ===================================================================== *)

(** What validation guarantees of the values a view writes: [d], [s], [c],
    [p], [r] are the five required values and [v] the whole set. *)
Record checked (e : App.env) (req : Request.t) (d : Datetime.date)
    (s c p r : string) (v : Db.values) : Prop := {
  chk_submitted : JobForm.is_submitted req = true;
  chk_values : Db.not_null v = Some (d, s, c, p, r);
  chk_date :
    (MultiDict.getlist "application_date" (Request.form req) = []
     /\ d = App.today e)
    \/ Datetime.strptime
         (Py.join " "
            (MultiDict.getlist "application_date" (Request.form req)))
       = Some d;
  chk_status : Spec.enumerated STATUS_CHOICES s;
  chk_company : Py.blank c = false;
  chk_position : Py.blank p = false;
  chk_resume : Spec.enumerated RESUME_CHOICES r
}.

(** The three things a request can do to the table: nothing, the
    [INSERT] of [add_job], the [UPDATE] of [job_edit]. *)
Inductive effect (e : App.env) (req : Request.t) (rows : Db.table)
  : Db.table -> Prop :=
| effect_none : effect e req rows rows
| effect_insert d s c p r v :
    checked e req d s c p r v ->
    effect e req rows
      (rows ++ [Job.mk (Db.next_rowid rows) d s c p r
                  (Db.v_job_url v) (Db.v_job_description v)
                  (Db.v_notes v) (Db.v_salary v) (Some (App.now e))])
| effect_update job_id job d s c p r v :
    Db.get job_id rows = Some job ->
    checked e req d s c p r v ->
    effect e req rows
      (map (fun row => if Job.id row =? job_id
                       then Db.assign d s c p r v row else row) rows).

(** The ids [1], ..., [n]. *)
Definition ids_upto (n : nat) : list Z := map Z.of_nat (seq 1 n).

(** The part of a row no view assigns to. *)
Definition identity (r : Job.t) : Z * option timestamp :=
  (Job.id r, Job.created_at r).

(** A date of the calendar. *)
Definition calendar_date (d : Datetime.date) : Prop :=
  Datetime.new (Datetime.year d) (Datetime.month d) (Datetime.day d) = Some d.

(** A row as the form lets it into the table. *)
Definition well_formed (r : Job.t) : Prop :=
  Spec.enumerated STATUS_CHOICES (Job.status r)
  /\ Job.resume_used r = "Default Resume"
  /\ Py.blank (Job.company r) = false
  /\ Py.blank (Job.position r) = false
  /\ Job.created_at r <> None.

(** The values of a row, as [job_edit] copies them into the form. *)
Definition values_of (job : Job.t) : Db.values :=
  Db.mk_values (Some (Job.application_date job)) (Some (Job.status job))
    (Some (Job.company job)) (Some (Job.position job))
    (Some (Job.resume_used job)) (Job.job_url job)
    (Job.job_description job) (Job.notes job) (Job.salary job).

(** [d] is later than the date of [r]. *)
Definition later_than (d : Datetime.date) (r : Job.t) : Prop :=
  Datetime.leb d (Job.application_date r) = false.

(* ===================================================================== *)
(** ** Facts about the string operations *)
(* ===================================================================== *)

Section PyFacts.

Lemma lstrip_nil text :
  Py.lstrip text = [] <-> forallb Py.isspace text = true.
Proof.
  induction text as [|cp text IH]; simpl; [tauto|].
  destruct (Py.isspace cp); simpl; [exact IH|].
  split; discriminate.
Qed.

Lemma spaces_lstrip text :
  forallb Py.isspace (Py.lstrip text) = forallb Py.isspace text.
Proof.
  induction text as [|cp text IH]; simpl; [reflexivity|].
  destruct (Py.isspace cp) eqn:Hcp; simpl; [exact IH|].
  rewrite Hcp. reflexivity.
Qed.

Lemma spaces_rev text :
  forallb Py.isspace (rev text) = forallb Py.isspace text.
Proof.
  induction text as [|cp text IH]; simpl; [reflexivity|].
  rewrite forallb_app, IH. simpl. rewrite andb_true_r. apply andb_comm.
Qed.

Lemma rev_nil {A} (l : list A) : rev l = [] <-> l = [].
Proof.
  split; intros H; [|subst; reflexivity].
  apply (f_equal (@rev A)) in H. rewrite rev_involutive in H. exact H.
Qed.

(** Stripping leaves nothing exactly of whitespace. *)
Lemma rstrip_lstrip_nil text :
  Py.rstrip (Py.lstrip text) = [] <-> forallb Py.isspace text = true.
Proof.
  unfold Py.rstrip.
  rewrite rev_nil, lstrip_nil, spaces_rev, spaces_lstrip. reflexivity.
Qed.

(** Every code point takes at least one byte. *)
Lemma encode_truthy text :
  Py.truthy (Utf8.encode text) = match text with [] => false | _ => true end.
Proof.
  destruct text as [|cp text]; [reflexivity|].
  cbn [Utf8.encode fold_right]. unfold Utf8.encode_point.
  destruct (cp <? 128)%N; [reflexivity|].
  destruct (cp <? 2048)%N; [reflexivity|].
  destruct (cp <? 65536)%N; reflexivity.
Qed.

(** [s.strip()] is empty exactly when [s] is all whitespace. *)
Lemma truthy_strip s : Py.truthy (Py.strip s) = negb (Py.blank s).
Proof.
  unfold Py.strip, Py.blank. rewrite encode_truthy.
  pose proof (rstrip_lstrip_nil (Utf8.decode s)) as H.
  destruct (Py.rstrip (Py.lstrip (Utf8.decode s)));
    destruct (forallb Py.isspace (Utf8.decode s)); try reflexivity.
  - destruct H as [H _]. discriminate (H eq_refl).
  - destruct H as [_ H]. discriminate (H eq_refl).
Qed.

Lemma blank_not_truthy s : Py.truthy s = false -> Py.blank s = true.
Proof. destruct s; simpl; [reflexivity | discriminate]. Qed.

(** The test [DataRequired] makes on a string. *)
Lemma required_test s :
  Py.truthy s && Py.truthy (Py.strip s) = negb (Py.blank s).
Proof.
  rewrite truthy_strip. destruct (Py.truthy s) eqn:Ht; simpl; [reflexivity|].
  rewrite (blank_not_truthy _ Ht). reflexivity.
Qed.

End PyFacts.

(* ===================================================================== *)
(** ** Facts about the table *)
(* ===================================================================== *)

Section DateOrder.

Lemma leb_total a b : Datetime.leb a b = true \/ Datetime.leb b a = true.
Proof.
  unfold Datetime.leb.
  destruct (Z.ltb_spec (Datetime.year a) (Datetime.year b));
    destruct (Z.ltb_spec (Datetime.year b) (Datetime.year a));
    destruct (Z.eqb_spec (Datetime.year a) (Datetime.year b));
    destruct (Z.eqb_spec (Datetime.year b) (Datetime.year a));
    destruct (Z.ltb_spec (Datetime.month a) (Datetime.month b));
    destruct (Z.ltb_spec (Datetime.month b) (Datetime.month a));
    destruct (Z.eqb_spec (Datetime.month a) (Datetime.month b));
    destruct (Z.eqb_spec (Datetime.month b) (Datetime.month a));
    destruct (Z.leb_spec (Datetime.day a) (Datetime.day b));
    destruct (Z.leb_spec (Datetime.day b) (Datetime.day a));
    simpl; auto; lia.
Qed.

Lemma leb_trans a b c :
  Datetime.leb a b = true -> Datetime.leb b c = true ->
  Datetime.leb a c = true.
Proof.
  unfold Datetime.leb.
  repeat rewrite orb_true_iff. repeat rewrite andb_true_iff.
  repeat rewrite orb_true_iff. repeat rewrite andb_true_iff.
  repeat rewrite Z.ltb_lt. repeat rewrite Z.eqb_eq. repeat rewrite Z.leb_le.
  lia.
Qed.

Lemma eqb_leb a b :
  Datetime.eqb a b = true <->
  Datetime.leb a b = true /\ Datetime.leb b a = true.
Proof.
  unfold Datetime.eqb, Datetime.leb.
  repeat rewrite orb_true_iff. repeat rewrite andb_true_iff.
  repeat rewrite orb_true_iff. repeat rewrite andb_true_iff.
  repeat rewrite Z.ltb_lt. repeat rewrite Z.eqb_eq. repeat rewrite Z.leb_le.
  lia.
Qed.

Lemma eqb_eq a b : Datetime.eqb a b = true <-> a = b.
Proof.
  unfold Datetime.eqb. repeat rewrite andb_true_iff.
  repeat rewrite Z.eqb_eq. destruct a, b; simpl. split.
  - intros [[-> ->] ->]. reflexivity.
  - intros [= -> -> ->]. auto.
Qed.

Lemma not_before_trans a b c :
  not_before a b -> not_before b c -> not_before a c.
Proof. unfold not_before. intros H1 H2. exact (leb_trans _ _ _ H2 H1). Qed.

End DateOrder.

Section Ordering.

Lemma place_perm r l : Permutation (Db.place r l) (r :: l).
Proof.
  induction l as [|x l IH]; simpl; [reflexivity|].
  destruct (Datetime.leb _ _); [reflexivity|].
  rewrite IH. apply perm_swap.
Qed.

Lemma order_by_perm rows :
  Permutation (Db.order_by_application_date_desc rows) rows.
Proof.
  induction rows as [|r rows IH]; simpl; [reflexivity|].
  rewrite place_perm. apply perm_skip, IH.
Qed.

Lemma place_sorted r l :
  StronglySorted not_before l -> StronglySorted not_before (Db.place r l).
Proof.
  induction 1 as [|x l Hl IH Hx]; simpl.
  - constructor; [constructor | constructor].
  - destruct (Datetime.leb (Job.application_date x) (Job.application_date r))
      eqn:Hle.
    + constructor; [constructor; assumption|].
      constructor; [exact Hle|].
      eapply List.Forall_impl; [|exact Hx].
      intros y Hy. eapply not_before_trans; [exact Hle | exact Hy].
    + constructor; [exact IH|].
      eapply Permutation_Forall; [symmetry; apply place_perm|].
      constructor; [|exact Hx].
      unfold not_before.
      destruct (leb_total (Job.application_date x) (Job.application_date r))
        as [H|H]; [congruence | exact H].
Qed.

Lemma order_by_sorted rows :
  StronglySorted not_before (Db.order_by_application_date_desc rows).
Proof.
  induction rows as [|r rows IH]; simpl; [constructor|].
  apply place_sorted, IH.
Qed.

(** Rows of one date stay in table order. *)
Lemma place_dated d r l :
  List.filter (dated d) (Db.place r l) = List.filter (dated d) (r :: l).
Proof.
  induction l as [|x l IH]; [reflexivity|].
  cbn [Db.place].
  destruct (Datetime.leb (Job.application_date x) (Job.application_date r))
    eqn:Hle; [reflexivity|].
  cbn [List.filter] in *. rewrite IH.
  destruct (dated d x) eqn:Hx, (dated d r) eqn:Hr; try reflexivity.
  exfalso. unfold dated in Hx, Hr.
  apply eqb_eq in Hx, Hr. rewrite Hx, Hr in Hle.
  destruct (leb_total d d); congruence.
Qed.

Lemma order_by_dated d rows :
  List.filter (dated d) (Db.order_by_application_date_desc rows)
  = List.filter (dated d) rows.
Proof.
  induction rows as [|r rows IH]; [reflexivity|].
  cbn [Db.order_by_application_date_desc]. rewrite place_dated.
  cbn [List.filter]. rewrite IH. reflexivity.
Qed.

Lemma sorted_app_inv (l1 l2 : Db.table) :
  StronglySorted not_before (l1 ++ l2) ->
  StronglySorted not_before l1
  /\ forall x y, In x l1 -> In y l2 -> not_before x y.
Proof.
  induction l1 as [|a l1 IH]; simpl; intros H.
  - split; [constructor | intros x y []].
  - inversion H as [|? ? Hs Hf]; subst.
    destruct (IH Hs) as [IH1 IH2]. split.
    + constructor; [exact IH1|].
      apply Forall_app in Hf. tauto.
    + intros x y [<-|Hx] Hy.
      * rewrite List.Forall_forall in Hf.
        apply Hf, in_or_app. right. exact Hy.
      * apply IH2; assumption.
Qed.

Lemma filter_firstn_prefix (f : Job.t -> bool) n (l : Db.table) :
  List.filter f l
  = List.filter f (firstn n l) ++ List.filter f (skipn n l).
Proof. rewrite <- List.filter_app, firstn_skipn. reflexivity. Qed.

Lemma filter_by_status_In s rows r :
  In r (Db.filter_by_status s rows) <-> In r rows /\ Job.status r = s.
Proof.
  unfold Db.filter_by_status. rewrite List.filter_In, String.eqb_eq.
  reflexivity.
Qed.

End Ordering.

Section RowIds.

Lemma max_rowid_bound rows r :
  In r rows -> exists m, Db.max_rowid rows = Some m /\ Job.id r <= m.
Proof.
  induction rows as [|x rows IH]; simpl; [intros []|].
  intros [->|Hin].
  - destruct (Db.max_rowid rows) as [m|]; eexists; split;
      try reflexivity; lia.
  - destruct (IH Hin) as [m [-> Hm]]. eexists; split; [reflexivity|]. lia.
Qed.

Lemma next_rowid_fresh rows r : In r rows -> Job.id r < Db.next_rowid rows.
Proof.
  intros Hin. destruct (max_rowid_bound _ _ Hin) as [m [Hm Hle]].
  unfold Db.next_rowid. rewrite Hm. lia.
Qed.

Lemma get_None job_id rows :
  Db.get job_id rows = None <-> ~ In job_id (map Job.id rows).
Proof.
  unfold Db.get. induction rows as [|x rows IH]; simpl; [tauto|].
  destruct (Z.eqb_spec (Job.id x) job_id) as [Heq|Hne].
  - split; [discriminate | intros H; exfalso; apply H; auto].
  - rewrite IH. tauto.
Qed.

Lemma get_Some job_id rows job :
  Db.get job_id rows = Some job -> In job rows /\ Job.id job = job_id.
Proof.
  unfold Db.get. intros H. apply find_some in H.
  rewrite Z.eqb_eq in H. exact H.
Qed.

Lemma get_next_rowid rows : Db.get (Db.next_rowid rows) rows = None.
Proof.
  apply get_None. intros Hin. apply in_map_iff in Hin.
  destruct Hin as [r [Heq Hin]]. apply next_rowid_fresh in Hin. lia.
Qed.

Lemma get_app job_id rows job :
  Db.get job_id rows = None ->
  Db.get job_id (rows ++ [job])
  = if Job.id job =? job_id then Some job else None.
Proof.
  unfold Db.get. induction rows as [|x rows IH]; simpl; [reflexivity|].
  destruct (Job.id x =? job_id); [discriminate | exact IH].
Qed.

Lemma get_app_old job_id rows job :
  job_id <> Job.id job ->
  Db.get job_id (rows ++ [job]) = Db.get job_id rows.
Proof.
  intros Hne. unfold Db.get.
  induction rows as [|x rows IH]; simpl.
  - destruct (Z.eqb_spec (Job.id job) job_id); [congruence | reflexivity].
  - destruct (Job.id x =? job_id); [reflexivity | exact IH].
Qed.

(** Reading a table after the [UPDATE] of row [job_id]. *)
Lemma get_updated (g : Job.t -> Job.t) job_id other rows :
  (forall r, Job.id (g r) = Job.id r) ->
  Db.get other
    (map (fun row => if Job.id row =? job_id then g row else row) rows)
  = if other =? job_id then option_map g (Db.get other rows)
    else Db.get other rows.
Proof.
  intros Hid. unfold Db.get.
  induction rows as [|x rows IH]; simpl.
  - destruct (other =? job_id); reflexivity.
  - destruct (Z.eqb_spec (Job.id x) job_id) as [Hx|Hx].
    + rewrite Hid. destruct (Z.eqb_spec (Job.id x) other) as [Ho|Ho].
      * subst. rewrite Z.eqb_refl. reflexivity.
      * exact IH.
    + destruct (Z.eqb_spec (Job.id x) other) as [Ho|Ho]; [|exact IH].
      destruct (Z.eqb_spec other job_id); [congruence | reflexivity].
Qed.

End RowIds.

(* ===================================================================== *)
(** ** Facts about form validation *)
(* ===================================================================== *)

Section Validation.

Variable today : Datetime.date.

Lemma raw_of_wrap name req :
  JobForm.raw_of name (JobForm.wrap_formdata req)
  = if JobForm.is_submitted req
    then MultiDict.getlist name (Request.form req) else [].
Proof.
  unfold JobForm.wrap_formdata, JobForm.raw_of.
  destruct (JobForm.is_submitted req); [|reflexivity].
  destruct (Request.form req); reflexivity.
Qed.

Lemma choice_enumerated choices s :
  existsb (fun ch => String.eqb (fst ch) s) choices = true
  <-> Spec.enumerated choices s.
Proof.
  unfold Spec.enumerated. rewrite existsb_exists, in_map_iff.
  split; intros [ch [H1 H2]]; exists ch.
  - apply String.eqb_eq in H2. tauto.
  - rewrite H1, String.eqb_refl. tauto.
Qed.

Lemma validate_field_data {A} pre vs (f : JobForm.field A) :
  JobForm.data (JobForm.validate_field pre vs f) = JobForm.data f.
Proof. reflexivity. Qed.

(** A required text field passes exactly when it holds more than
    whitespace. *)
Lemma required_text_verdict name fd :
  JobForm.no_errors
    (JobForm.validate_field JobForm.no_pre [JobForm.DataRequired]
       (JobForm.process_text name fd))
  = match head (JobForm.raw_of name fd) with
    | Some s => negb (Py.blank s)
    | None => false
    end.
Proof.
  unfold JobForm.validate_field, JobForm.no_errors, JobForm.process_text,
    JobForm.no_pre, JobForm.DataRequired; simpl.
  destruct (head (JobForm.raw_of name fd)) as [s|]; [|reflexivity].
  rewrite required_test. destruct (Py.blank s); reflexivity.
Qed.

(** A choice field passes exactly when it holds a value of its choices
    (and, under [DataRequired], more than whitespace). *)
Lemma select_verdict choices name fd :
  JobForm.no_errors
    (JobForm.validate_field (JobForm.pre_validate_select choices) []
       (JobForm.process_text name fd))
  = match head (JobForm.raw_of name fd) with
    | Some s => existsb (fun ch => String.eqb (fst ch) s) choices
    | None => false
    end.
Proof.
  unfold JobForm.validate_field, JobForm.no_errors, JobForm.process_text,
    JobForm.pre_validate_select; simpl.
  destruct (head (JobForm.raw_of name fd)) as [s|]; [|reflexivity].
  destruct (existsb _ choices); reflexivity.
Qed.

Lemma required_select_verdict choices name fd :
  JobForm.no_errors
    (JobForm.validate_field (JobForm.pre_validate_select choices)
       [JobForm.DataRequired] (JobForm.process_text name fd))
  = match head (JobForm.raw_of name fd) with
    | Some s => existsb (fun ch => String.eqb (fst ch) s) choices
                && negb (Py.blank s)
    | None => false
    end.
Proof.
  unfold JobForm.validate_field, JobForm.no_errors, JobForm.process_text,
    JobForm.pre_validate_select, JobForm.DataRequired; simpl.
  destruct (head (JobForm.raw_of name fd)) as [s|]; [|reflexivity].
  rewrite required_test.
  destruct (existsb _ choices), (Py.blank s); reflexivity.
Qed.

(** An optional field never fails. *)
Lemma optional_verdict name fd :
  JobForm.no_errors
    (JobForm.validate_field JobForm.no_pre [JobForm.Optional]
       (JobForm.process_text name fd)) = true.
Proof.
  unfold JobForm.validate_field, JobForm.no_errors, JobForm.process_text,
    JobForm.no_pre, JobForm.Optional; simpl.
  destruct (JobForm.raw_of name fd) as [|s raw]; simpl; [reflexivity|].
  destruct (Py.truthy (Py.strip s)); reflexivity.
Qed.

(** The date field passes when nothing was sent under its name (the
    default stands) or when what was sent reads as a date. *)
Lemma date_verdict name fd :
  JobForm.no_errors
    (JobForm.validate_field JobForm.no_pre [JobForm.DataRequired_date]
       (JobForm.process_date (Some today) name fd))
  = match JobForm.raw_of name fd with
    | [] => true
    | _ :: _ =>
        match Datetime.strptime (Py.join " " (JobForm.raw_of name fd)) with
        | Some _ => true
        | None => false
        end
    end.
Proof.
  unfold JobForm.validate_field, JobForm.no_errors, JobForm.process_date,
    JobForm.no_pre, JobForm.DataRequired_date.
  destruct (JobForm.raw_of name fd) as [|s raw]; [reflexivity|].
  destruct (Datetime.strptime _); reflexivity.
Qed.

Lemma date_data name fd :
  JobForm.data (JobForm.process_date (Some today) name fd)
  = match JobForm.raw_of name fd with
    | [] => Some today
    | _ :: _ => Datetime.strptime (Py.join " " (JobForm.raw_of name fd))
    end.
Proof.
  unfold JobForm.process_date.
  destruct (JobForm.raw_of name fd) as [|s raw]; [reflexivity|].
  destruct (Datetime.strptime _); reflexivity.
Qed.

(** The verdict of [validate] on a freshly bound form, field by field. *)
Lemma ok_validate req :
  JobForm.ok (JobForm.validate req (JobForm.bind today req))
  = let fd := JobForm.wrap_formdata req in
    match JobForm.raw_of "application_date" fd with
    | [] => true
    | _ :: _ =>
        match Datetime.strptime
                (Py.join " " (JobForm.raw_of "application_date" fd)) with
        | Some _ => true
        | None => false
        end
    end
    && match head (JobForm.raw_of "status" fd) with
       | Some s => existsb (fun ch => String.eqb (fst ch) s) STATUS_CHOICES
       | None => false
       end
    && match head (JobForm.raw_of "company" fd) with
       | Some s => negb (Py.blank s)
       | None => false
       end
    && match head (JobForm.raw_of "position" fd) with
       | Some s => negb (Py.blank s)
       | None => false
       end
    && match head (JobForm.raw_of "resume_used" fd) with
       | Some s => existsb (fun ch => String.eqb (fst ch) s) RESUME_CHOICES
                   && negb (Py.blank s)
       | None => false
       end
    && match Request.csrf_error req with
       | Some _ => false
       | None => true
       end.
Proof.
  unfold JobForm.ok, JobForm.validate, JobForm.bind.
  cbn [JobForm.application_date JobForm.status JobForm.company
       JobForm.position JobForm.resume_used JobForm.job_url
       JobForm.job_description JobForm.notes JobForm.salary
       JobForm.csrf_token].
  rewrite date_verdict, select_verdict, !required_text_verdict,
    required_select_verdict, !optional_verdict.
  rewrite !andb_true_r.
  destruct (Request.csrf_error req); reflexivity.
Qed.

(** The values the views read from a validated form. *)
Lemma values_validate req :
  JobForm.values (JobForm.validate req (JobForm.bind today req))
  = let fd := JobForm.wrap_formdata req in
    Db.mk_values
      (match JobForm.raw_of "application_date" fd with
       | [] => Some today
       | _ :: _ =>
           Datetime.strptime
             (Py.join " " (JobForm.raw_of "application_date" fd))
       end)
      (head (JobForm.raw_of "status" fd))
      (head (JobForm.raw_of "company" fd))
      (head (JobForm.raw_of "position" fd))
      (head (JobForm.raw_of "resume_used" fd))
      (head (JobForm.raw_of "job_url" fd))
      (head (JobForm.raw_of "job_description" fd))
      (head (JobForm.raw_of "notes" fd))
      (head (JobForm.raw_of "salary" fd)).
Proof.
  unfold JobForm.values, JobForm.validate, JobForm.bind.
  cbn [JobForm.application_date JobForm.status JobForm.company
       JobForm.position JobForm.resume_used JobForm.job_url
       JobForm.job_description JobForm.notes JobForm.salary].
  rewrite !validate_field_data, date_data. reflexivity.
Qed.

End Validation.

Section Submissions.

Variable e : App.env.

Lemma accepted_submitted req d s c p r :
  accepted req d s c p r -> JobForm.is_submitted req = true.
Proof.
  intros H. unfold JobForm.is_submitted. rewrite (acc_method _ _ _ _ _ _ H).
  reflexivity.
Qed.

Lemma accepted_date_sent req d s c p r :
  accepted req d s c p r ->
  exists v raw,
    MultiDict.getlist "application_date" (Request.form req) = v :: raw.
Proof.
  intros H. pose proof (acc_date _ _ _ _ _ _ H) as Hd.
  destruct (MultiDict.getlist "application_date" (Request.form req))
    as [|v raw]; [discriminate Hd | eauto].
Qed.

(** An accepted submission validates, and the views read from the form
    the values that were sent. *)
Lemma accepted_validates req d s c p r :
  accepted req d s c p r ->
  exists form,
    JobForm.validate_on_submit req (JobForm.bind (App.today e) req)
    = (form, true)
    /\ JobForm.values form
       = Db.mk_values (Some d) (Some s) (Some c) (Some p) (Some r)
           (MultiDict.get "job_url" (Request.form req))
           (MultiDict.get "job_description" (Request.form req))
           (MultiDict.get "notes" (Request.form req))
           (MultiDict.get "salary" (Request.form req)).
Proof.
  intros H. pose proof (accepted_submitted _ _ _ _ _ _ H) as Hsub.
  destruct (accepted_date_sent _ _ _ _ _ _ H) as [v [raw Hraw]].
  destruct H as [_ Hcsrf Hd Hs Hse Hc Hcb Hp Hpb Hr Hre].
  unfold JobForm.validate_on_submit. rewrite Hsub.
  eexists; split.
  - f_equal. rewrite ok_validate. cbv zeta.
    rewrite !raw_of_wrap, Hsub, Hcsrf.
    fold (MultiDict.get "status" (Request.form req)).
    fold (MultiDict.get "company" (Request.form req)).
    fold (MultiDict.get "position" (Request.form req)).
    fold (MultiDict.get "resume_used" (Request.form req)).
    rewrite Hs, Hc, Hp, Hr, Hcb, Hpb.
    apply choice_enumerated in Hse, Hre. rewrite Hse, Hre.
    rewrite Hraw in Hd |- *. rewrite Hd.
    assert (Py.blank r = false) as ->.
    { unfold Spec.enumerated in Hre. apply choice_enumerated in Hre.
      simpl in Hre. destruct Hre as [<-|[]]. reflexivity. }
    reflexivity.
  - rewrite values_validate. cbv zeta. rewrite !raw_of_wrap, Hsub.
    fold (MultiDict.get "status" (Request.form req)).
    fold (MultiDict.get "company" (Request.form req)).
    fold (MultiDict.get "position" (Request.form req)).
    fold (MultiDict.get "resume_used" (Request.form req)).
    rewrite Hs, Hc, Hp, Hr. rewrite Hraw in Hd |- *. rewrite Hd.
    reflexivity.
Qed.

(** A rejected submission does not validate. *)
Lemma rejected_fails req :
  rejected req ->
  snd (JobForm.validate_on_submit req (JobForm.bind (App.today e) req))
  = false.
Proof.
  intros H. unfold JobForm.validate_on_submit.
  destruct (JobForm.is_submitted req) eqn:Hsub; [|reflexivity].
  cbn [snd]. rewrite ok_validate. cbv zeta. rewrite !raw_of_wrap, Hsub.
  fold (MultiDict.get "status" (Request.form req)).
  fold (MultiDict.get "company" (Request.form req)).
  fold (MultiDict.get "position" (Request.form req)).
  fold (MultiDict.get "resume_used" (Request.form req)).
  unfold rejected, absent_or_blank, absent_or_foreign in H.
  destruct H as [H|[[H1 H2]|[H|[H|[H|H]]]]].
  - destruct (Request.csrf_error req); [|congruence].
    apply andb_false_r.
  - destruct (MultiDict.getlist "application_date" (Request.form req));
      [congruence|].
    rewrite H2. reflexivity.
  - destruct (MultiDict.get "status" (Request.form req)) as [s|].
    + rewrite <- choice_enumerated in H.
      apply not_true_is_false in H. rewrite H.
      rewrite andb_false_r. reflexivity.
    + rewrite andb_false_r. reflexivity.
  - destruct (MultiDict.get "company" (Request.form req)) as [s|].
    + rewrite H. rewrite andb_false_r. reflexivity.
    + rewrite andb_false_r. reflexivity.
  - destruct (MultiDict.get "position" (Request.form req)) as [s|].
    + rewrite H. simpl. rewrite andb_false_r. reflexivity.
    + rewrite andb_false_r. reflexivity.
  - destruct (MultiDict.get "resume_used" (Request.form req)) as [s|].
    + rewrite <- choice_enumerated in H.
      apply not_true_is_false in H. rewrite H.
      simpl. rewrite andb_false_r. reflexivity.
    + rewrite andb_false_r. reflexivity.
Qed.

(** Conversely, a submitted request that is not rejected validates: the
    rejected submissions are all the submissions the form turns down. *)
Lemma not_rejected_validates req :
  JobForm.is_submitted req = true ->
  ~ rejected req ->
  snd (JobForm.validate_on_submit req (JobForm.bind (App.today e) req))
  = true.
Proof.
  intros Hsub H. unfold JobForm.validate_on_submit. rewrite Hsub.
  cbn [snd]. rewrite ok_validate. cbv zeta. rewrite !raw_of_wrap, Hsub.
  fold (MultiDict.get "status" (Request.form req)).
  fold (MultiDict.get "company" (Request.form req)).
  fold (MultiDict.get "position" (Request.form req)).
  fold (MultiDict.get "resume_used" (Request.form req)).
  unfold rejected, absent_or_blank, absent_or_foreign in H.
  repeat rewrite andb_true_iff. repeat split.
  - destruct (MultiDict.getlist "application_date" (Request.form req))
      as [|v raw] eqn:Hraw; [reflexivity|].
    destruct (Datetime.strptime _) eqn:Hd; [reflexivity|].
    exfalso. apply H. right. left. split; [discriminate | reflexivity].
  - destruct (MultiDict.get "status" (Request.form req)) as [s|];
      [|exfalso; apply H; tauto].
    destruct (existsb _ STATUS_CHOICES) eqn:Hs; [reflexivity|].
    exfalso. apply H. right. right. left.
    rewrite <- choice_enumerated. congruence.
  - destruct (MultiDict.get "company" (Request.form req)) as [s|];
      [|exfalso; apply H; tauto].
    destruct (Py.blank s) eqn:Hb; [|reflexivity].
    exfalso. apply H. tauto.
  - destruct (MultiDict.get "position" (Request.form req)) as [s|];
      [|exfalso; apply H; tauto].
    destruct (Py.blank s) eqn:Hb; [|reflexivity].
    exfalso. apply H. tauto.
  - destruct (MultiDict.get "resume_used" (Request.form req)) as [s|];
      [|exfalso; apply H; tauto].
    destruct (existsb _ RESUME_CHOICES) eqn:Hs.
    + apply existsb_exists in Hs. destruct Hs as [ch [Hin Heq]].
      apply String.eqb_eq in Heq. subst s.
      destruct Hin as [<-|[]]. reflexivity.
    + exfalso. apply H. do 5 right.
      rewrite <- choice_enumerated. congruence.
  - destruct (Request.csrf_error req); [|reflexivity].
    exfalso. apply H. left. discriminate.
Qed.

(** A submission that validates carries a status of the enumeration and
    all five required values. *)
Lemma validated_values req form :
  JobForm.validate_on_submit req (JobForm.bind (App.today e) req)
  = (form, true) ->
  exists d s c p r,
    Db.not_null (JobForm.values form) = Some (d, s, c, p, r)
    /\ Spec.enumerated STATUS_CHOICES s.
Proof.
  unfold JobForm.validate_on_submit.
  destruct (JobForm.is_submitted req) eqn:Hsub; [|discriminate].
  intros [= <- Hok]. rewrite ok_validate in Hok. cbv zeta in Hok.
  rewrite values_validate. cbv zeta. unfold Db.not_null.
  cbn [Db.v_application_date Db.v_status Db.v_company Db.v_position
       Db.v_resume_used].
  repeat rewrite andb_true_iff in Hok.
  destruct Hok as [[[[[Hd Hs] Hc] Hp] Hr] _].
  destruct (head (JobForm.raw_of "status" _)) as [s|]; [|discriminate].
  destruct (head (JobForm.raw_of "company" _)) as [c|]; [|discriminate].
  destruct (head (JobForm.raw_of "position" _)) as [p|]; [|discriminate].
  destruct (head (JobForm.raw_of "resume_used" _)) as [r|]; [|discriminate].
  apply choice_enumerated in Hs.
  destruct (JobForm.raw_of "application_date" _) as [|v raw].
  - eauto 10.
  - destruct (Datetime.strptime _) as [d|]; [eauto 10 | discriminate].
Qed.

End Submissions.

(* ===================================================================== *)
(** ** What the views do with a submission *)
(* ===================================================================== *)

Section Views.

Variable e : App.env.

Lemma add_job_accepted req rows d s c p r :
  accepted req d s c p r ->
  App.add_job e req rows
  = (App.redirect App.url_for_jobs,
     rows ++ [stored (Db.next_rowid rows) d s c p r (Request.form req)
                (Some (App.now e))]).
Proof.
  intros H. unfold App.add_job.
  destruct (accepted_validates e _ _ _ _ _ _ H) as [form [-> Hv]].
  unfold Db.add_commit. rewrite Hv. reflexivity.
Qed.

Lemma add_job_rejected req rows :
  rejected req ->
  exists form,
    App.add_job e req rows
    = (App.render_template "add_job.html" (App.add_job_ctx form), rows).
Proof.
  intros H. unfold App.add_job.
  pose proof (rejected_fails e _ H) as Hf.
  destruct (JobForm.validate_on_submit _ _) as [form valid].
  cbn [snd] in Hf. subst valid. eauto.
Qed.

Lemma job_edit_accepted req rows job_id job d s c p r :
  Db.get job_id rows = Some job ->
  accepted req d s c p r ->
  App.job_edit e req job_id rows
  = (App.redirect (App.url_for_job_details job_id),
     map (fun row =>
            if Job.id row =? job_id
            then stored (Job.id row) d s c p r (Request.form req)
                   (Job.created_at row)
            else row) rows).
Proof.
  intros Hget H. unfold App.job_edit, Db.get_or_404. rewrite Hget.
  destruct (accepted_validates e _ _ _ _ _ _ H) as [form [-> Hv]].
  unfold Db.update_commit. rewrite Hv. reflexivity.
Qed.

Lemma job_edit_rejected req rows job_id job :
  Db.get job_id rows = Some job ->
  rejected req ->
  exists form,
    App.job_edit e req job_id rows
    = (App.render_template "edit_job.html"
         (App.edit_job_ctx form job job_id), rows).
Proof.
  intros Hget H. unfold App.job_edit, Db.get_or_404. rewrite Hget.
  pose proof (rejected_fails e _ H) as Hf.
  destruct (JobForm.validate_on_submit _ _) as [form valid].
  cbn [snd] in Hf. subst valid. eauto.
Qed.

(** No view lets a status outside the enumeration into the table. *)
Lemma add_job_statuses req rows :
  statuses_enumerated rows ->
  statuses_enumerated (snd (App.add_job e req rows)).
Proof.
  intros Hrows. unfold App.add_job.
  destruct (JobForm.validate_on_submit _ _) as [form valid] eqn:Hval.
  destruct valid; [|exact Hrows].
  destruct (validated_values e _ _ Hval) as (d & s & c & p & r & Hnn & Hs).
  unfold Db.add_commit. rewrite Hnn. cbn [snd].
  apply Forall_app. split; [exact Hrows|].
  constructor; [exact Hs | constructor].
Qed.

Lemma job_edit_statuses req job_id rows :
  statuses_enumerated rows ->
  statuses_enumerated (snd (App.job_edit e req job_id rows)).
Proof.
  intros Hrows. unfold App.job_edit, Db.get_or_404.
  destruct (Db.get job_id rows) as [job|];
    [|destruct (Db.int64 job_id); exact Hrows].
  destruct (JobForm.validate_on_submit _ _) as [form valid] eqn:Hval.
  destruct valid; [|exact Hrows].
  destruct (validated_values e _ _ Hval) as (d & s & c & p & r & Hnn & Hs).
  unfold Db.update_commit. rewrite Hnn. cbn [snd].
  unfold statuses_enumerated in *.
  induction Hrows as [|x rows Hx Hrows IH]; simpl; constructor; auto.
  destruct (Job.id x =? job_id); [exact Hs | exact Hx].
Qed.

(** The table after a request is the table before it or the table a
    view returns. *)
Lemma handle_table req rows :
  snd (App.handle e req rows) = rows
  \/ exists ep args,
       snd (App.handle e req rows) = snd (App.call_view e req ep args rows).
Proof.
  unfold App.handle.
  destruct (App.route _ _) as [ep args| |]; try (left; reflexivity).
  destruct (Request.method req); try (left; reflexivity);
    right; exists ep, args; reflexivity.
Qed.

Lemma handle_statuses req rows :
  statuses_enumerated rows ->
  statuses_enumerated (snd (App.handle e req rows)).
Proof.
  intros Hrows.
  destruct (handle_table req rows) as [->|(ep & args & ->)];
    [exact Hrows|].
  unfold App.call_view.
  destruct ep; destruct args as [|a [|b args]]; try exact Hrows.
  - apply add_job_statuses, Hrows.
  - unfold App.job_details, Db.get_or_404.
    destruct (Db.get a rows); [|destruct (Db.int64 a)]; exact Hrows.
  - apply job_edit_statuses, Hrows.
  - unfold App.health_readiness.
    destruct (App.select_1 e) as [|exc]; [exact Hrows|].
    destruct (App.isinstance_Exception exc); exact Hrows.
Qed.

End Views.

(** Every table the application reaches holds enumerated statuses only. *)
Lemma reachable_statuses rows :
  App.reachable rows -> statuses_enumerated rows.
Proof.
  induction 1 as [|e req rows _ IH]; [constructor|].
  apply handle_statuses, IH.
Qed.

(* ===================================================================== *)
(** ** Add, Details and Edit *)
(* ===================================================================== *)

(** Discharges [accepted] on a concrete request. *)
Ltac accept_sample :=
  constructor; first [reflexivity | vm_compute; tauto].

(** C1. After an accepted submission to Add (token good, date sent and
    well formed, status and resume_used in their enumerations, company and
    position not blank), the view redirects to the list, and Details on
    the id the insert assigned, which no row had before, shows a record
    holding exactly the submitted values, with that id and with
    [created_at] set to the time of the insert; every other id reads as
    before. *)
Theorem add_then_details (e : App.env) (req : Request.t) (rows : Db.table)
    (d : Datetime.date) (s c p r : string) :
  accepted req d s c p r ->
  Db.get (Db.next_rowid rows) rows = None
  /\ exists rows',
      App.add_job e req rows = (App.redirect App.url_for_jobs, rows')
      /\ App.job_details (Db.next_rowid rows) rows'
         = (App.render_template "job_details.html"
              (App.job_details_ctx
                 (stored (Db.next_rowid rows) d s c p r (Request.form req)
                    (Some (App.now e)))
                 (Db.next_rowid rows)),
            rows')
      /\ length rows' = S (length rows)
      /\ forall other, other <> Db.next_rowid rows ->
                       Db.get other rows' = Db.get other rows.
Proof.
  intros H. split; [apply get_next_rowid|].
  eexists. split; [apply add_job_accepted, H|]. split; [|split].
  - unfold App.job_details, Db.get_or_404.
    rewrite get_app by apply get_next_rowid.
    cbn [stored Job.id]. rewrite Z.eqb_refl. reflexivity.
  - rewrite length_app. simpl. lia.
  - intros other Hne. apply get_app_old. exact Hne.
Qed.

Lemma add_then_details_witness :
  accepted (Sample.post "/add-job" Sample.acme_form)
    (Datetime.mkdate 2024 1 15) "Interviewing" "Acme" "Engineer"
    "Default Resume"
  /\ exists rows',
      App.add_job Sample.env (Sample.post "/add-job" Sample.acme_form)
        Sample.three_rows
      = (App.redirect App.url_for_jobs, rows')
      /\ App.job_details 4 rows'
         = (App.render_template "job_details.html"
              (App.job_details_ctx
                 (Job.mk 4 (Datetime.mkdate 2024 1 15) "Interviewing" "Acme"
                    "Engineer" "Default Resume" None None None None
                    (Some 1709283600)) 4),
            rows')
      /\ length rows' = 4%nat
      /\ forall other, other <> 4 ->
                       Db.get other rows' = Db.get other Sample.three_rows.
Proof.
  assert (Hacc : accepted (Sample.post "/add-job" Sample.acme_form)
                   (Datetime.mkdate 2024 1 15) "Interviewing" "Acme"
                   "Engineer" "Default Resume") by accept_sample.
  split; [exact Hacc|].
  exact (proj2 (add_then_details Sample.env _ Sample.three_rows _ _ _ _ _
                  Hacc)).
Defined.

(** C2. The code breaks the claim at a submission without its
    application_date pair: it lacks a required field, one the form
    declares with [DataRequired()], yet the form validates it against the
    field's default, today's date; Add stores a record and redirects, and
    Edit overwrites the date of the record with today's. *)
Lemma undated_submission_is_stored :
  Spec.invalid_submission Sample.undated_form
  /\ App.add_job Sample.env (Sample.post "/add-job" Sample.undated_form) []
     = (App.redirect App.url_for_jobs,
        [Job.mk 1 (Datetime.mkdate 2024 3 1) "Interviewing" "Acme" "Engineer"
           "Default Resume" None None None None (Some 1709283600)])
  /\ App.job_edit Sample.env (Sample.post "/job/1/edit" Sample.undated_form)
       1 [Sample.acme]
     = (App.redirect (App.url_for_job_details 1),
        [Job.mk 1 (Datetime.mkdate 2024 3 1) "Interviewing" "Acme" "Engineer"
           "Default Resume" None None None None (Some 1709283600)]).
Proof.
  split; [|split; reflexivity].
  left. exists "application_date". split; [|reflexivity].
  simpl. auto.
Qed.

(** X21. A submission is turned down when its token is bad, when
    company or position is absent or blank, when status or resume_used is
    absent or outside its enumeration, or when an application_date was
    sent that is not a date.  Then Add creates no record and Edit modifies
    none: the table is returned as it was, and the form is rendered again
    instead of a redirect. *)
Theorem rejected_submission_changes_nothing (e : App.env) (req : Request.t)
    (rows : Db.table) :
  rejected req ->
  (exists form,
      App.add_job e req rows
      = (App.render_template "add_job.html" (App.add_job_ctx form), rows))
  /\ (forall job_id job,
         Db.get job_id rows = Some job ->
         exists form,
           App.job_edit e req job_id rows
           = (App.render_template "edit_job.html"
                (App.edit_job_ctx form job job_id), rows)).
Proof.
  intros H. split.
  - apply add_job_rejected, H.
  - intros job_id job Hget. eapply job_edit_rejected; eassumption.
Qed.

Lemma rejected_submission_changes_nothing_witness :
  rejected (Sample.post "/add-job" Sample.blank_company_form)
  /\ (exists form,
         App.add_job Sample.env
           (Sample.post "/add-job" Sample.blank_company_form)
           Sample.three_rows
         = (App.render_template "add_job.html" (App.add_job_ctx form),
            Sample.three_rows))
  /\ (forall job_id job,
         Db.get job_id Sample.three_rows = Some job ->
         exists form,
           App.job_edit Sample.env
             (Sample.post "/add-job" Sample.blank_company_form) job_id
             Sample.three_rows
           = (App.render_template "edit_job.html"
                (App.edit_job_ctx form job job_id), Sample.three_rows)).
Proof.
  assert (Hrej : rejected (Sample.post "/add-job" Sample.blank_company_form)).
  { right. right. right. left. reflexivity. }
  split; [exact Hrej|].
  exact (rejected_submission_changes_nothing Sample.env _ Sample.three_rows
           Hrej).
Defined.

(** C3. On an existing record, an accepted Edit submission redirects to
    Details and leaves the record with its id and its [created_at] and
    with the nine submitted values in application_date, status, company,
    position, resume_used, job_url, job_description, notes and salary;
    every other record, the number of rows, and the id and [created_at]
    of every row are as before. *)
Theorem edit_changes_nine_fields (e : App.env) (req : Request.t)
    (rows : Db.table) (job_id : Z) (job : Job.t)
    (d : Datetime.date) (s c p r : string) :
  Db.get job_id rows = Some job ->
  accepted req d s c p r ->
  exists rows',
    App.job_edit e req job_id rows
    = (App.redirect (App.url_for_job_details job_id), rows')
    /\ Db.get job_id rows'
       = Some (stored (Job.id job) d s c p r (Request.form req)
                 (Job.created_at job))
    /\ (forall other, other <> job_id ->
                      Db.get other rows' = Db.get other rows)
    /\ map Job.id rows' = map Job.id rows
    /\ map Job.created_at rows' = map Job.created_at rows.
Proof.
  intros Hget H. eexists. split; [eapply job_edit_accepted; eassumption|].
  split; [|split; [|split]].
  - rewrite (get_updated
               (fun row => stored (Job.id row) d s c p r (Request.form req)
                             (Job.created_at row)))
      by reflexivity.
    rewrite Z.eqb_refl, Hget. reflexivity.
  - intros other Hne.
    rewrite (get_updated
               (fun row => stored (Job.id row) d s c p r (Request.form req)
                             (Job.created_at row)))
      by reflexivity.
    destruct (Z.eqb_spec other job_id); [contradiction | reflexivity].
  - rewrite map_map. apply map_ext. intros row.
    destruct (Job.id row =? job_id); reflexivity.
  - rewrite map_map. apply map_ext. intros row.
    destruct (Job.id row =? job_id); reflexivity.
Qed.

Lemma edit_changes_nine_fields_witness :
  Db.get 1 Sample.three_rows = Some Sample.acme
  /\ accepted (Sample.post "/job/1/edit" Sample.rejection_form)
       (Datetime.mkdate 2024 1 15) "Rejected Application" "Acme" "Engineer"
       "Default Resume"
  /\ exists rows',
      App.job_edit Sample.env (Sample.post "/job/1/edit" Sample.rejection_form)
        1 Sample.three_rows
      = (App.redirect (App.url_for_job_details 1), rows')
      /\ Db.get 1 rows'
         = Some (Job.mk 1 (Datetime.mkdate 2024 1 15) "Rejected Application"
                   "Acme" "Engineer" "Default Resume" None None
                   (Some "No interview") None (Some 1709283600))
      /\ (forall other, other <> 1 ->
                        Db.get other rows' = Db.get other Sample.three_rows)
      /\ map Job.id rows' = [1; 2; 3]
      /\ map Job.created_at rows'
         = [Some 1709283600; Some 1709283700; Some 1709283800].
Proof.
  assert (Hacc : accepted (Sample.post "/job/1/edit" Sample.rejection_form)
                   (Datetime.mkdate 2024 1 15) "Rejected Application" "Acme"
                   "Engineer" "Default Resume") by accept_sample.
  split; [reflexivity|]. split; [exact Hacc|].
  exact (edit_changes_nine_fields Sample.env _ Sample.three_rows 1 Sample.acme
           _ _ _ _ _ eq_refl Hacc).
Defined.

(* ===================================================================== *)
(** ** List and Dashboard *)
(* ===================================================================== *)

(** C4, as stated, fails: with [status] present and empty the List view
    returns every record, not the records whose status is the empty
    string. *)
Lemma empty_status_is_not_a_filter :
  MultiDict.contains "status" [("status", "")] = true
  /\ App.jobs (Sample.get "/jobs" [("status", "")]) [Sample.acme]
     = (App.render_template "jobs.html" (App.jobs_ctx [Sample.acme]),
        [Sample.acme])
  /\ ~ Spec.listed_as_claimed [("status", "")] [Sample.acme] [Sample.acme].
Proof.
  split; [reflexivity|]. split; [reflexivity|].
  unfold Spec.listed_as_claimed. simpl. intros H.
  destruct (H Sample.acme) as [H1 _].
  destruct H1 as [_ H1]; [left; reflexivity | discriminate H1].
Qed.

(** C4, amended.  The List view renders, for every request and table, a
    list sorted by application_date descending.  When [status] is present
    and not empty, the list holds exactly the records whose status equals
    that string, whatever the string (none when no record matches); when
    [status] is absent or empty, it holds every record. *)
Theorem jobs_lists_by_status (req : Request.t) (rows : Db.table) :
  exists listed,
    App.jobs req rows
    = (App.render_template "jobs.html" (App.jobs_ctx listed), rows)
    /\ StronglySorted not_before listed
    /\ match MultiDict.get "status" (Request.args req) with
       | Some (String c s') =>
           Permutation listed
             (List.filter (fun r => String.eqb (Job.status r) (String c s'))
                rows)
           /\ forall r, In r listed
                        <-> In r rows /\ Job.status r = String c s'
       | Some EmptyString | None => Permutation listed rows
       end.
Proof.
  unfold App.jobs.
  destruct (MultiDict.get "status" (Request.args req)) as [[|c s']|];
    cbn [Py.truthy]; eexists; (split; [reflexivity|]);
    (split; [apply order_by_sorted|]); try apply order_by_perm.
  split; [apply order_by_perm|].
  intros r. rewrite <- filter_by_status_In.
  split; apply Permutation_in;
    [|symmetry]; apply order_by_perm.
Qed.

(** C10. When the [status] parameter is present and empty, the List view
    answers as it does for a request without the parameter, and what it
    lists is every record. *)
Theorem empty_status_lists_all (req req' : Request.t) (rows : Db.table) :
  MultiDict.get "status" (Request.args req) = Some "" ->
  MultiDict.get "status" (Request.args req') = None ->
  App.jobs req rows = App.jobs req' rows
  /\ exists listed,
      App.jobs req rows
      = (App.render_template "jobs.html" (App.jobs_ctx listed), rows)
      /\ Permutation listed rows.
Proof.
  intros H H'. unfold App.jobs. rewrite H, H'. cbn [Py.truthy].
  split; [reflexivity|].
  eexists. split; [reflexivity | apply order_by_perm].
Qed.

Lemma empty_status_lists_all_witness :
  MultiDict.get "status" [("status", "")] = Some ""
  /\ MultiDict.get "status" [] = None
  /\ App.jobs (Sample.get "/jobs" [("status", "")]) Sample.three_rows
     = App.jobs (Sample.get "/jobs" []) Sample.three_rows
  /\ exists listed,
      App.jobs (Sample.get "/jobs" [("status", "")]) Sample.three_rows
      = (App.render_template "jobs.html" (App.jobs_ctx listed),
         Sample.three_rows)
      /\ Permutation listed Sample.three_rows.
Proof.
  split; [reflexivity|]. split; [reflexivity|].
  exact (empty_status_lists_all (Sample.get "/jobs" [("status", "")])
           (Sample.get "/jobs" []) Sample.three_rows eq_refl eq_refl).
Defined.

(** C5. The Dashboard renders the number of records and a list [recent]
    of five of them (all of them when there are fewer) such that: [recent]
    is sorted by application_date descending; no record left out is more
    recent than one in the list; and, for every date, the records of that
    date in the list are the first ones of that date in insertion order,
    in insertion order. *)
Theorem dashboard_recent_jobs (rows : Db.table) :
  exists recent statuses,
    App.home rows
    = (App.render_template "dashboard.html"
         (App.dashboard_ctx (length rows) recent statuses), rows)
    /\ length recent = Nat.min 5 (length rows)
    /\ StronglySorted not_before recent
    /\ (exists others,
           Permutation rows (recent ++ others)
           /\ forall x y, In x recent -> In y others -> not_before x y)
    /\ (forall d, exists later,
           List.filter (dated d) rows
           = List.filter (dated d) recent ++ later).
Proof.
  unfold App.home, Db.limit, Db.count.
  eexists; eexists. split; [reflexivity|].
  pose proof (order_by_sorted rows) as Hs.
  rewrite <- (firstn_skipn 5 (Db.order_by_application_date_desc rows)) in Hs.
  apply sorted_app_inv in Hs. destruct Hs as [Hs Hle].
  split; [|split; [exact Hs|split]].
  - rewrite length_firstn, (Permutation_length (order_by_perm rows)).
    reflexivity.
  - exists (skipn 5 (Db.order_by_application_date_desc rows)).
    split; [|exact Hle].
    rewrite firstn_skipn. symmetry. apply order_by_perm.
  - intros d.
    exists (List.filter (dated d)
              (skipn 5 (Db.order_by_application_date_desc rows))).
    rewrite <- filter_firstn_prefix. symmetry. apply order_by_dated.
Qed.

Section StatusCounts.

Variable rows : Db.table.

(** The loop of [home], started from any dictionary, over any choices. *)
Lemma count_loop (choices : list (string * string))
    (acc : gmap string nat) (s : string) :
  foldl (fun (statuses : gmap string nat) status_choice =>
           let status := fst status_choice in
           let count := Db.count (Db.filter_by_status status rows) in
           if (0 <? count)%nat then <[status := count]> statuses
           else statuses)
        acc choices !! s
  = if existsb (fun ch => String.eqb (fst ch) s) choices
       && (0 <? Db.count (Db.filter_by_status s rows))%nat
    then Some (Db.count (Db.filter_by_status s rows))
    else acc !! s.
Proof.
  revert acc. induction choices as [|ch choices IH]; intros acc;
    [reflexivity|].
  cbn [foldl existsb]. rewrite IH. cbv zeta.
  destruct (existsb _ choices
            && (0 <? Db.count (Db.filter_by_status s rows))%nat) eqn:Hrest.
  - rewrite orb_comm, andb_orb_distrib_l, Hrest. reflexivity.
  - destruct (String.eqb_spec (fst ch) s) as [->|Hne].
    + apply andb_false_iff in Hrest.
      destruct (0 <? Db.count (Db.filter_by_status s rows))%nat eqn:Hpos.
      * rewrite lookup_insert_eq. simpl. reflexivity.
      * rewrite andb_false_r. reflexivity.
    + cbn [orb].
      destruct (existsb _ choices); [simpl in Hrest; rewrite Hrest|];
        cbn [andb];
        destruct (0 <? Db.count (Db.filter_by_status (fst ch) rows))%nat;
        try reflexivity; rewrite lookup_insert_ne by exact Hne; reflexivity.
Qed.

Lemma count_statuses_lookup (s : string) :
  App.count_statuses rows !! s
  = if existsb (fun ch => String.eqb (fst ch) s) STATUS_CHOICES
       && (0 <? Db.count (Db.filter_by_status s rows))%nat
    then Some (Db.count (Db.filter_by_status s rows))
    else None.
Proof.
  unfold App.count_statuses. rewrite count_loop, lookup_empty. reflexivity.
Qed.

Lemma count_positive (s : string) :
  (0 < Db.count (Db.filter_by_status s rows))%nat
  <-> exists r, In r rows /\ Job.status r = s.
Proof.
  unfold Db.count. split.
  - destruct (Db.filter_by_status s rows) as [|r l] eqn:Hf; simpl; [lia|].
    intros _. exists r. apply filter_by_status_In. rewrite Hf. left.
    reflexivity.
  - intros [r Hr]. apply filter_by_status_In in Hr.
    destruct (Db.filter_by_status s rows); [destruct Hr | simpl; lia].
Qed.

End StatusCounts.

(** C6. In every table whose records carry statuses of the enumeration,
    as every table the application reaches does, the dictionary the
    Dashboard renders has an entry for a status exactly when some record
    has that status; an entry is never zero: it is the number of records
    with that status. *)
Theorem statuses_lists_present_statuses (rows : Db.table) :
  statuses_enumerated rows ->
  exists recent statuses,
    App.home rows
    = (App.render_template "dashboard.html"
         (App.dashboard_ctx (length rows) recent statuses), rows)
    /\ forall s,
        (is_Some (statuses !! s) <-> exists r, In r rows /\ Job.status r = s)
        /\ (forall n, statuses !! s = Some n ->
                      (0 < n)%nat
                      /\ n = length (Db.filter_by_status s rows)).
Proof.
  intros Henum. unfold App.home. eexists; eexists. split; [reflexivity|].
  intros s. rewrite count_statuses_lookup.
  destruct (existsb _ STATUS_CHOICES) eqn:Hch;
    destruct (0 <? Db.count (Db.filter_by_status s rows))%nat eqn:Hpos;
    cbn [andb].
  - apply Nat.ltb_lt in Hpos. split.
    + split; [intros _; apply count_positive, Hpos | eauto].
    + intros n [= <-]. split; [exact Hpos | reflexivity].
  - apply Nat.ltb_ge in Hpos. split; [|discriminate].
    split; [intros [n Hn]; discriminate Hn|].
    intros Hr. apply count_positive in Hr. lia.
  - exfalso. apply Nat.ltb_lt, count_positive in Hpos.
    destruct Hpos as [r [Hin <-]].
    unfold statuses_enumerated in Henum.
    rewrite List.Forall_forall in Henum. apply Henum in Hin.
    apply choice_enumerated in Hin. congruence.
  - apply Nat.ltb_ge in Hpos. split; [|discriminate].
    split; [intros [n Hn]; discriminate Hn|].
    intros Hr. apply count_positive in Hr. lia.
Qed.

Lemma statuses_lists_present_statuses_witness :
  statuses_enumerated Sample.three_rows
  /\ exists recent statuses,
      App.home Sample.three_rows
      = (App.render_template "dashboard.html"
           (App.dashboard_ctx 3 recent statuses), Sample.three_rows)
      /\ forall s,
          (is_Some (statuses !! s)
           <-> exists r, In r Sample.three_rows /\ Job.status r = s)
          /\ (forall n, statuses !! s = Some n ->
                        (0 < n)%nat
                        /\ n = length
                                 (Db.filter_by_status s Sample.three_rows)).
Proof.
  assert (Henum : statuses_enumerated Sample.three_rows).
  { repeat constructor; vm_compute; tauto. }
  split; [exact Henum|].
  exact (statuses_lists_present_statuses Sample.three_rows Henum).
Defined.

(** The specification's two examples: after the Acme submission the
    Dashboard counts one record under Interviewing; after the edit to
    Rejected Application the Interviewing entry is gone. *)
Example dashboard_after_add :
  App.count_statuses
    (snd (App.add_job Sample.env (Sample.post "/add-job" Sample.acme_form) []))
  = {[ "Interviewing" := 1%nat ]}.
Proof. vm_compute. reflexivity. Qed.

Example dashboard_after_edit :
  App.count_statuses
    (snd (App.job_edit Sample.env
            (Sample.post "/job/1/edit" Sample.rejection_form) 1
            [Sample.acme]))
  = {[ "Rejected Application" := 1%nat ]}.
Proof. vm_compute. reflexivity. Qed.

(* ===================================================================== *)
(** ** Not found, health checks, routes *)
(* ===================================================================== *)

(** X22. For an id that no record has and that is a 64-bit integer,
    Details and Edit, shown or submitted, answer 404, not a server error,
    and return the table as it was. *)
Theorem missing_id_is_not_found (e : App.env) (req : Request.t)
    (job_id : Z) (rows : Db.table) :
  ~ In job_id (map Job.id rows) ->
  Db.int64 job_id = true ->
  App.job_details job_id rows = (App.abort 404, rows)
  /\ App.job_edit e req job_id rows = (App.abort 404, rows)
  /\ App.is_server_error (App.abort 404) = false.
Proof.
  intros Hid Hrange. apply get_None in Hid.
  unfold App.job_details, App.job_edit, Db.get_or_404. rewrite Hid, Hrange.
  repeat split; reflexivity.
Qed.

Lemma missing_id_is_not_found_witness :
  ~ In 7 (map Job.id Sample.three_rows)
  /\ Db.int64 7 = true
  /\ App.job_details 7 Sample.three_rows = (App.abort 404, Sample.three_rows)
  /\ App.job_edit Sample.env (Sample.post "/job/7/edit" Sample.acme_form) 7
       Sample.three_rows
     = (App.abort 404, Sample.three_rows)
  /\ App.is_server_error (App.abort 404) = false.
Proof.
  assert (Hid : ~ In 7 (map Job.id Sample.three_rows)).
  { simpl. intros [H|[H|[H|[]]]]; discriminate H. }
  split; [exact Hid|]. split; [reflexivity|].
  exact (missing_id_is_not_found Sample.env
           (Sample.post "/job/7/edit" Sample.acme_form) 7 Sample.three_rows
           Hid eq_refl).
Defined.

(** C7. The claim fails on the code at the ids beyond 64 bits, which the
    [int] converter lets through: for such an id, present in no table,
    the lookup raises [OverflowError], and Details and Edit answer 500, a
    server error, where the comments of both views promise 404. *)
Theorem huge_id_is_a_server_error (e : App.env) (req : Request.t)
    (rows : Db.table) :
  ~ In 9223372036854775808 (map Job.id rows) ->
  App.job_details 9223372036854775808 rows = (App.abort 500, rows)
  /\ App.job_edit e req 9223372036854775808 rows = (App.abort 500, rows)
  /\ App.handle e (Request.mk Request.GET "/job/9223372036854775808" [] []
                     None) rows
     = (App.abort 500, rows)
  /\ App.is_server_error (App.abort 500) = true.
Proof.
  intros Hid. apply get_None in Hid.
  assert (Hd : App.job_details 9223372036854775808 rows
               = (App.abort 500, rows)).
  { unfold App.job_details, Db.get_or_404. rewrite Hid. reflexivity. }
  split; [exact Hd|]. split; [|split; [|reflexivity]].
  - unfold App.job_edit, Db.get_or_404. rewrite Hid. reflexivity.
  - exact Hd.
Qed.

Lemma huge_id_is_a_server_error_witness :
  ~ In 9223372036854775808 (map Job.id Sample.three_rows)
  /\ App.handle Sample.env
       (Request.mk Request.GET "/job/9223372036854775808" [] [] None)
       Sample.three_rows
     = (App.abort 500, Sample.three_rows).
Proof.
  assert (Hid : ~ In 9223372036854775808 (map Job.id Sample.three_rows)).
  { simpl. intros [H|[H|[H|[]]]]; discriminate H. }
  split; [exact Hid|].
  exact (proj1 (proj2 (proj2
           (huge_id_is_a_server_error Sample.env (Sample.get "/" [])
              Sample.three_rows Hid)))).
Defined.

(** The same through dispatch: the three requests on an id that no record
    of the sample table has. *)
Example missing_id_through_dispatch :
  App.handle Sample.env (Sample.get "/job/7" []) Sample.three_rows
  = (App.abort 404, Sample.three_rows)
  /\ App.handle Sample.env (Sample.get "/job/7/edit" []) Sample.three_rows
     = (App.abort 404, Sample.three_rows)
  /\ App.handle Sample.env (Sample.post "/job/7/edit" Sample.acme_form)
       Sample.three_rows
     = (App.abort 404, Sample.three_rows).
Proof. repeat split; reflexivity. Qed.

(** C8. Liveness answers 200 "OK" whatever the table is and however the
    probe of the store would end.  Readiness answers 200 "OK" when the
    probe returns and 500 "Not Ready", a status of the 5xx class, when the
    probe raises an [Exception], the error of an unreachable store among
    them; the exception does not leave the view.  Neither changes the
    table. *)
Theorem health_checks (today : Datetime.date) (now : timestamp)
    (rows : Db.table) :
  (forall probe args form csrf,
      App.handle (App.mk_env today now probe)
        (Request.mk Request.GET "/healthz/live" args form csrf) rows
      = (App.text "OK" 200, rows))
  /\ (forall args form csrf,
         App.handle (App.mk_env today now (App.Returns tt))
           (Request.mk Request.GET "/healthz/readiness" args form csrf) rows
         = (App.text "OK" 200, rows))
  /\ (forall msg args form csrf,
         App.handle
           (App.mk_env today now (App.Raises (App.OperationalError msg)))
           (Request.mk Request.GET "/healthz/readiness" args form csrf) rows
         = (App.text "Not Ready" 500, rows))
  /\ (forall cls args form csrf,
         App.handle
           (App.mk_env today now (App.Raises (App.OtherException cls)))
           (Request.mk Request.GET "/healthz/readiness" args form csrf) rows
         = (App.text "Not Ready" 500, rows))
  /\ App.is_server_error (App.text "Not Ready" 500) = true.
Proof.
  repeat split; reflexivity.
Qed.

Section Routes.

(** A rule that does not match the path can be dropped from a map. *)
Lemma route_in_skip rules1 r rules2 m path seen :
  App.match_parts (App.segments (App.rule_string r)) (App.segments path)
  = None ->
  App.route_in (rules1 ++ r :: rules2) m path seen
  = App.route_in (rules1 ++ rules2) m path seen.
Proof.
  intros Hr. revert seen.
  induction rules1 as [|x rules1 IH]; intros seen; simpl.
  - rewrite Hr. reflexivity.
  - destruct (App.match_parts (App.segments (App.rule_string x)) _);
      [|apply IH].
    destruct (existsb _ _); [reflexivity | apply IH].
Qed.

Lemma segments_not_nil s : App.segments s <> [].
Proof.
  destruct s as [|c s]; simpl; [discriminate|].
  destruct (Ascii.eqb c "/"); [discriminate|].
  destruct (App.segments s); discriminate.
Qed.

Lemma join_cons sep x items :
  items <> [] ->
  Py.join sep (x :: items)
  = String.append x (String.append sep (Py.join sep items)).
Proof. destruct items; [congruence | reflexivity]. Qed.

(** [split] is undone by [join]. *)
Lemma join_segments s : Py.join "/" (App.segments s) = s.
Proof.
  induction s as [|c s IH]; [reflexivity|].
  cbn [App.segments]. pose proof (segments_not_nil s) as Hne.
  destruct (Ascii.eqb_spec c "/"%char) as [->|Hc].
  - rewrite join_cons by exact Hne. rewrite IH. reflexivity.
  - destruct (App.segments s) as [|h t]; [congruence|].
    destruct t as [|h' t].
    + simpl in *. rewrite IH. reflexivity.
    + rewrite join_cons by discriminate.
      rewrite join_cons in IH by discriminate.
      rewrite <- IH. reflexivity.
Qed.

(** A rule of plain parts matches the paths with those parts only. *)
Lemma match_parts_literal pattern path args :
  forallb (fun p => negb (App.is_path_part p) && negb (App.is_int_part p))
    pattern = true ->
  App.match_parts pattern path = Some args -> path = pattern.
Proof.
  revert path args. induction pattern as [|p pattern IH];
    intros [|s path] args Hlit H; simpl in *; try discriminate;
    [reflexivity|].
  apply andb_true_iff in Hlit. destruct Hlit as [Hp Hlit].
  apply andb_true_iff in Hp. destruct Hp as [Hpath Hint].
  apply negb_true_iff in Hpath, Hint. rewrite Hpath, Hint in H.
  destruct (String.eqb_spec p s) as [->|]; [|discriminate].
  f_equal. eapply IH; eassumption.
Qed.

Lemma testpage_only path :
  path <> "/testpage" ->
  App.match_parts (App.segments "/testpage") (App.segments path) = None.
Proof.
  intros Hne.
  destruct (App.match_parts _ _) as [args|] eqn:Hm; [|reflexivity].
  exfalso. apply Hne.
  apply match_parts_literal in Hm; [|reflexivity].
  rewrite <- (join_segments path), Hm. reflexivity.
Qed.

End Routes.

(** C9, as stated, fails: [GET /testpage] is routed to a view, which
    answers 200 with a fixed text, and the handler table has no such
    route.  So is a file of the static folder, and so is [HEAD] on a
    path of the table. *)
Lemma testpage_is_routed :
  App.route Request.GET "/testpage" = App.Found App.TestPage []
  /\ App.route_in Spec.handler_table Request.GET "/testpage" false
     = App.NotFound
  /\ App.handle Sample.env (Sample.get "/testpage" []) Sample.three_rows
     = (App.text "This page is only a test" 200, Sample.three_rows)
  /\ App.route Request.GET "/static/css/site.css" = App.Found App.Static []
  /\ App.route_in Spec.handler_table Request.GET "/static/css/site.css" false
     = App.NotFound
  /\ App.route Request.HEAD "/jobs" = App.Found App.Jobs []
  /\ App.route_in Spec.handler_table Request.HEAD "/jobs" false
     = App.MethodNotAllowed.
Proof. repeat split; reflexivity. Qed.

(** C9, amended.  The routes of the application are those of the handler
    table, [GET /testpage] and the static rule [GET
    /static/<path:filename>], each answering [HEAD] and [OPTIONS] as
    well, and no other: every request, whatever its method and path, is
    routed as the map of exactly those rules routes it, to the same view
    with the same arguments or to the same refusal. *)
Theorem routes_are_table_testpage_and_static (m : Request.http_method)
    (path : string) :
  App.route m path
  = App.route_in
      (map App.add_url_rule
         (App.static_rule
          :: Spec.handler_table
          ++ [App.mk_rule "/testpage" [Request.GET] App.TestPage]))
      m path false.
Proof.
  destruct (String.eqb_spec path "/testpage") as [->|Hne].
  - destruct m; reflexivity.
  - unfold App.route.
    change App.url_map
      with (map App.add_url_rule
              (App.static_rule :: firstn 5 Spec.handler_table)
            ++ App.add_url_rule
                 (App.mk_rule "/testpage" [Request.GET] App.TestPage)
            :: map App.add_url_rule (skipn 5 Spec.handler_table)).
    rewrite route_in_skip by (apply testpage_only, Hne).
    change (map App.add_url_rule
              (App.static_rule
               :: Spec.handler_table
               ++ [App.mk_rule "/testpage" [Request.GET] App.TestPage]))
      with (map App.add_url_rule (App.static_rule :: Spec.handler_table)
            ++ App.add_url_rule
                 (App.mk_rule "/testpage" [Request.GET] App.TestPage)
            :: []).
    rewrite route_in_skip by (apply testpage_only, Hne).
    rewrite app_nil_r. reflexivity.
Qed.

(* ===================================================================== *)
(** ** Every request as an effect on the table *)
(* ===================================================================== *)

Section Effects.

Variable e : App.env.

(** What a validated form hands to the session. *)
Lemma validated_checked req form :
  JobForm.validate_on_submit req (JobForm.bind (App.today e) req)
  = (form, true) ->
  exists d s c p r, checked e req d s c p r (JobForm.values form).
Proof.
  unfold JobForm.validate_on_submit.
  destruct (JobForm.is_submitted req) eqn:Hsub; [|discriminate].
  intros [= <- Hok]. rewrite ok_validate in Hok. cbv zeta in Hok.
  rewrite values_validate. cbv zeta.
  rewrite !raw_of_wrap, Hsub in Hok. rewrite !raw_of_wrap, Hsub.
  repeat rewrite andb_true_iff in Hok.
  destruct Hok as [[[[[Hd Hs] Hc] Hp] Hr] _].
  destruct (head (MultiDict.getlist "status" _)) as [s|]; [|discriminate].
  destruct (head (MultiDict.getlist "company" _)) as [c|]; [|discriminate].
  destruct (head (MultiDict.getlist "position" _)) as [p|]; [|discriminate].
  destruct (head (MultiDict.getlist "resume_used" _)) as [r|];
    [|discriminate].
  apply choice_enumerated in Hs. apply andb_true_iff in Hr.
  destruct Hr as [Hr _]. apply choice_enumerated in Hr.
  apply negb_true_iff in Hc, Hp.
  destruct (MultiDict.getlist "application_date" (Request.form req))
    as [|v raw] eqn:Hraw.
  - exists (App.today e), s, c, p, r.
    constructor; try assumption; try reflexivity.
    left. rewrite Hraw. split; reflexivity.
  - destruct (Datetime.strptime _) as [d|] eqn:Hparse; [|discriminate].
    exists d, s, c, p, r.
    constructor; try assumption; try reflexivity.
    right. rewrite Hraw. exact Hparse.
Qed.

Lemma add_job_effect req rows :
  effect e req rows (snd (App.add_job e req rows)).
Proof.
  unfold App.add_job.
  destruct (JobForm.validate_on_submit _ _) as [form valid] eqn:Hval.
  destruct valid; [|constructor].
  destruct (validated_checked _ _ Hval) as (d & s & c & p & r & Hchk).
  unfold Db.add_commit. rewrite (chk_values _ _ _ _ _ _ _ _ Hchk).
  cbn [snd]. apply effect_insert, Hchk.
Qed.

Lemma job_edit_effect req job_id rows :
  effect e req rows (snd (App.job_edit e req job_id rows)).
Proof.
  unfold App.job_edit, Db.get_or_404.
  destruct (Db.get job_id rows) as [job|] eqn:Hget;
    [|destruct (Db.int64 job_id); constructor].
  destruct (JobForm.validate_on_submit _ _) as [form valid] eqn:Hval.
  destruct valid; [|constructor].
  destruct (validated_checked _ _ Hval) as (d & s & c & p & r & Hchk).
  unfold Db.update_commit. rewrite (chk_values _ _ _ _ _ _ _ _ Hchk).
  cbn [snd]. eapply effect_update; eassumption.
Qed.

Lemma call_view_effect req ep args rows :
  effect e req rows (snd (App.call_view e req ep args rows)).
Proof.
  unfold App.call_view.
  destruct ep; destruct args as [|a [|b args]]; try constructor.
  - apply add_job_effect.
  - unfold App.job_details, Db.get_or_404.
    destruct (Db.get a rows); [|destruct (Db.int64 a)]; constructor.
  - apply job_edit_effect.
  - unfold App.health_readiness.
    destruct (App.select_1 e) as [|exc]; [constructor|].
    destruct (App.isinstance_Exception exc); constructor.
Qed.

Lemma handle_effect req rows :
  effect e req rows (snd (App.handle e req rows)).
Proof.
  destruct (handle_table e req rows) as [->|(ep & args & ->)];
    [constructor | apply call_view_effect].
Qed.

End Effects.

Section Identifiers.

Lemma ids_upto_S n : ids_upto (S n) = ids_upto n ++ [Z.of_nat (S n)].
Proof. unfold ids_upto. rewrite seq_S, map_app. reflexivity. Qed.

Lemma ids_upto_In n z :
  In z (ids_upto n) <-> 1 <= z <= Z.of_nat n.
Proof.
  unfold ids_upto. rewrite in_map_iff. split.
  - intros [k [<- Hk]]. apply in_seq in Hk. lia.
  - intros Hz. exists (Z.to_nat z). split; [lia|]. apply in_seq. lia.
Qed.

Lemma max_rowid_In rows m :
  Db.max_rowid rows = Some m -> In m (map Job.id rows).
Proof.
  revert m. induction rows as [|x rows IH]; simpl; intros m; [discriminate|].
  destruct (Db.max_rowid rows) as [m'|].
  - intros [= <-]. destruct (Z.max_spec (Job.id x) m') as [[_ ->]|[_ ->]];
      [right; apply IH; reflexivity | left; reflexivity].
  - intros [= <-]. left. reflexivity.
Qed.

(** With the ids [1..n] in use, the next insert receives [n + 1]. *)
Lemma next_rowid_upto rows :
  map Job.id rows = ids_upto (length rows) ->
  Db.next_rowid rows = Z.of_nat (S (length rows)).
Proof.
  intros Hids. unfold Db.next_rowid.
  destruct (Db.max_rowid rows) as [m|] eqn:Hmax.
  - pose proof (max_rowid_In _ _ Hmax) as Hin.
    rewrite Hids in Hin. apply ids_upto_In in Hin.
    destruct rows as [|x rows _] using rev_ind; [discriminate Hmax|].
    assert (Hlast : In x (rows ++ [x])) by (apply in_or_app; right; left; auto).
    destruct (max_rowid_bound _ _ Hlast) as [m' [Hm' Hle]].
    rewrite Hmax in Hm'. injection Hm' as <-.
    rewrite length_app in *. cbn [length] in *.
    rewrite Nat.add_1_r in *. rewrite ids_upto_S, map_app in Hids.
    apply app_inj_tail in Hids. destruct Hids as [_ Hx].
    lia.
  - destruct rows as [|x rows]; [reflexivity|].
    simpl in Hmax. destruct (Db.max_rowid rows); discriminate.
Qed.

Lemma effect_ids e req rows rows' :
  effect e req rows rows' ->
  map Job.id rows = ids_upto (length rows) ->
  map Job.id rows' = ids_upto (length rows').
Proof.
  intros Heff Hids. destruct Heff as [|d s c p r v _|job_id job d s c p r v _ _].
  - exact Hids.
  - rewrite map_app, length_app. cbn [map length Job.id].
    rewrite Nat.add_1_r, ids_upto_S, next_rowid_upto, Hids by exact Hids.
    reflexivity.
  - rewrite length_map, map_map. rewrite <- Hids. apply map_ext.
    intros row. destruct (Job.id row =? job_id); reflexivity.
Qed.

End Identifiers.

(* ===================================================================== *)
(** ** Invariants of the table *)
(* ===================================================================== *)

(** X1. The tables the application reaches number their records 1, 2,
    ..., n in insertion order: ids are unique, start at 1 and have no
    gaps, since rows are only ever appended with the next rowid and an
    edit keeps every id. *)
Theorem reachable_ids_consecutive (rows : Db.table) :
  App.reachable rows -> map Job.id rows = ids_upto (length rows).
Proof.
  induction 1 as [|e req rows _ IH]; [reflexivity|].
  eapply effect_ids; [apply handle_effect | exact IH].
Qed.

Lemma reachable_ids_consecutive_witness :
  App.reachable
    (snd (App.handle Sample.env (Sample.post "/add-job" Sample.acme_form)
            (snd (App.handle Sample.env
                    (Sample.post "/add-job" Sample.rejection_form) []))))
  /\ map Job.id
       (snd (App.handle Sample.env (Sample.post "/add-job" Sample.acme_form)
               (snd (App.handle Sample.env
                       (Sample.post "/add-job" Sample.rejection_form) []))))
     = [1; 2].
Proof.
  assert (Hr : App.reachable
                 (snd (App.handle Sample.env
                         (Sample.post "/add-job" Sample.acme_form)
                         (snd (App.handle Sample.env
                                 (Sample.post "/add-job"
                                    Sample.rejection_form) []))))).
  { do 2 apply App.reachable_handled. apply App.reachable_created. }
  split; [exact Hr|].
  exact (reachable_ids_consecutive _ Hr).
Defined.

(** X2. In a reachable table of n records, Details answers 404 exactly
    for the ids outside 1..n that are 64-bit integers, and 500 exactly
    for the ids outside 1..n that are not. *)
Theorem details_found_in_range (rows : Db.table) (k : Z) :
  App.reachable rows ->
  (App.job_details k rows = (App.abort 404, rows)
   <-> ~ (1 <= k <= Z.of_nat (length rows)) /\ Db.int64 k = true)
  /\ (App.job_details k rows = (App.abort 500, rows)
      <-> ~ (1 <= k <= Z.of_nat (length rows)) /\ Db.int64 k = false).
Proof.
  intros Hr.
  assert (Hids : map Job.id rows = ids_upto (length rows)).
  { induction Hr as [|e req rows _ IH]; [reflexivity|].
    eapply effect_ids; [apply handle_effect | exact IH]. }
  rewrite <- ids_upto_In, <- Hids, <- get_None.
  unfold App.job_details, Db.get_or_404.
  destruct (Db.get k rows); [|destruct (Db.int64 k)]; cbn;
    (split; split; intros H);
    try discriminate H; try (destruct H; discriminate);
    try reflexivity; try (split; reflexivity).
Qed.

Lemma details_found_in_range_witness :
  App.reachable
    (snd (App.handle Sample.env (Sample.post "/add-job" Sample.acme_form) []))
  /\ (App.job_details 2
        (snd (App.handle Sample.env (Sample.post "/add-job" Sample.acme_form)
                []))
      = (App.abort 404,
         snd (App.handle Sample.env (Sample.post "/add-job" Sample.acme_form)
                []))
      <-> ~ (1 <= 2 <= 1) /\ Db.int64 2 = true).
Proof.
  assert (Hr : App.reachable
                 (snd (App.handle Sample.env
                         (Sample.post "/add-job" Sample.acme_form) []))).
  { apply App.reachable_handled, App.reachable_created. }
  split; [exact Hr|].
  exact (proj1 (details_found_in_range _ 2 Hr)).
Defined.

(** X3. Whatever the request and the table, the table afterwards holds
    the rows it held, in the same order and each with the id and the
    [created_at] it had, followed by at most one new row: no request
    deletes a record, renumbers one or touches a creation time. *)
Theorem handle_keeps_identities (e : App.env) (req : Request.t)
    (rows : Db.table) :
  exists added,
    (length added <= 1)%nat
    /\ map identity (snd (App.handle e req rows))
       = map identity rows ++ map identity added.
Proof.
  destruct (handle_effect e req rows)
    as [|d s c p r v _|job_id job d s c p r v _ _].
  - exists []. split; [simpl; lia|]. rewrite app_nil_r. reflexivity.
  - eexists [_]. split; [simpl; lia|]. rewrite map_app. reflexivity.
  - exists []. split; [simpl; lia|]. rewrite app_nil_r, map_map.
    apply map_ext. intros row.
    destruct (Job.id row =? job_id); reflexivity.
Qed.

Section WellFormed.

Lemma resume_is_default r :
  Spec.enumerated RESUME_CHOICES r -> r = "Default Resume".
Proof. intros [<-|[]]. reflexivity. Qed.

Lemma effect_well_formed e req rows rows' :
  effect e req rows rows' ->
  Forall well_formed rows -> Forall well_formed rows'.
Proof.
  intros Heff Hwf.
  destruct Heff as [|d s c p r v Hc|job_id job d s c p r v _ Hc].
  - exact Hwf.
  - apply Forall_app. split; [exact Hwf|].
    constructor; [|constructor].
    destruct Hc. unfold well_formed; cbn.
    repeat split; auto using resume_is_default; discriminate.
  - induction Hwf as [|x rows Hx Hrows IH]; simpl; constructor; auto.
    destruct (Job.id x =? job_id); [|exact Hx].
    destruct Hc. destruct Hx as (_ & _ & _ & _ & Hcreated).
    unfold well_formed; cbn.
    repeat split; auto using resume_is_default.
Qed.

Lemma new_calendar y m d date :
  Datetime.new y m d = Some date -> calendar_date date.
Proof.
  unfold calendar_date, Datetime.new.
  destruct (_ && _) eqn:Hok; [|discriminate].
  intros [= <-]. cbn. rewrite Hok. reflexivity.
Qed.

Lemma strptime_calendar s date :
  Datetime.strptime s = Some date -> calendar_date date.
Proof.
  unfold Datetime.strptime.
  destruct (Datetime.re_matches _) as [|[[[y m] d] rest] _]; [discriminate|].
  destruct rest; [|discriminate]. apply new_calendar.
Qed.

End WellFormed.

(** X4. Every record of a reachable table carries a status of the
    enumeration, the resume "Default Resume", a company and a position
    that are not blank, and a creation time. *)
Theorem reachable_well_formed (rows : Db.table) :
  App.reachable rows -> Forall well_formed rows.
Proof.
  induction 1 as [|e req rows _ IH]; [constructor|].
  eapply effect_well_formed; [apply handle_effect | exact IH].
Qed.

Lemma reachable_well_formed_witness :
  App.reachable
    (snd (App.handle Sample.env (Sample.post "/add-job" Sample.acme_form) []))
  /\ Forall well_formed
       (snd (App.handle Sample.env (Sample.post "/add-job" Sample.acme_form)
               [])).
Proof.
  assert (Hr : App.reachable
                 (snd (App.handle Sample.env
                         (Sample.post "/add-job" Sample.acme_form) []))).
  { apply App.reachable_handled, App.reachable_created. }
  split; [exact Hr|].
  exact (reachable_well_formed _ Hr).
Defined.

(** X5. When the server's day is a date of the calendar and every record
    holds one, every record still does after any request: a date enters
    the table only through [strptime] or as today's date. *)
Theorem handle_keeps_calendar_dates (e : App.env) (req : Request.t)
    (rows : Db.table) :
  calendar_date (App.today e) ->
  Forall (fun r => calendar_date (Job.application_date r)) rows ->
  Forall (fun r => calendar_date (Job.application_date r))
    (snd (App.handle e req rows)).
Proof.
  intros Htoday Hrows.
  assert (Hd : forall d s c p r v,
             checked e req d s c p r v -> calendar_date d).
  { intros d s c p r v Hc. destruct (chk_date _ _ _ _ _ _ _ _ Hc)
      as [[_ ->]|Hparse]; [exact Htoday|].
    eapply strptime_calendar, Hparse. }
  destruct (handle_effect e req rows)
    as [|d s c p r v Hc|job_id job d s c p r v _ Hc].
  - exact Hrows.
  - apply Forall_app. split; [exact Hrows|].
    constructor; [|constructor]. cbn. eapply Hd, Hc.
  - induction Hrows as [|x rows Hx Hrows IH]; simpl; constructor; auto.
    destruct (Job.id x =? job_id); [|exact Hx]. cbn. eapply Hd, Hc.
Qed.

Lemma handle_keeps_calendar_dates_witness :
  calendar_date (App.today Sample.env)
  /\ Forall (fun r => calendar_date (Job.application_date r))
       Sample.three_rows
  /\ Forall (fun r => calendar_date (Job.application_date r))
       (snd (App.handle Sample.env
               (Sample.post "/add-job" Sample.undated_form)
               Sample.three_rows)).
Proof.
  assert (Ht : calendar_date (App.today Sample.env)) by reflexivity.
  assert (Hrows : Forall (fun r => calendar_date (Job.application_date r))
                    Sample.three_rows).
  { repeat constructor. }
  split; [exact Ht|]. split; [exact Hrows|].
  exact (handle_keeps_calendar_dates Sample.env _ Sample.three_rows Ht Hrows).
Defined.

(* ===================================================================== *)
(** ** Dispatch *)
(* ===================================================================== *)

Section Dispatch.

(** A routed request matched a rule of the map, path and method. *)
Lemma route_in_found rules m path seen ep args :
  App.route_in rules m path seen = App.Found ep args ->
  exists r,
    In r rules /\ App.rule_endpoint r = ep
    /\ App.match_parts (App.segments (App.rule_string r))
         (App.segments path) = Some args
    /\ existsb (App.method_eqb m) (App.methods r) = true.
Proof.
  revert seen. induction rules as [|x rules IH]; intros seen; simpl.
  - destruct seen; discriminate.
  - destruct (App.match_parts (App.segments (App.rule_string x)) _)
      as [args'|] eqn:Hm.
    + destruct (existsb _ (App.methods x)) eqn:Hx.
      * intros [= <- <-]. exists x. auto.
      * intros H. destruct (IH _ H) as [r Hr]. exists r. tauto.
    + intros H. destruct (IH _ H) as [r Hr]. exists r. tauto.
Qed.

Lemma match_parts_literal_args pattern path args :
  forallb (fun p => negb (App.is_path_part p) && negb (App.is_int_part p))
    pattern = true ->
  App.match_parts pattern path = Some args -> args = [].
Proof.
  revert path args. induction pattern as [|p pattern IH];
    intros [|s path] args Hlit H; simpl in *; try discriminate.
  - injection H as <-. reflexivity.
  - apply andb_true_iff in Hlit. destruct Hlit as [Hp Hlit].
    apply andb_true_iff in Hp. destruct Hp as [Hpath Hint].
    apply negb_true_iff in Hpath, Hint. rewrite Hpath, Hint in H.
    destruct (String.eqb p s); [|discriminate].
    eapply IH; eassumption.
Qed.

(** A path that matches a rule of plain parts is the rule's string. *)
Lemma literal_rule_path rule path args :
  forallb (fun p => negb (App.is_path_part p) && negb (App.is_int_part p))
    (App.segments rule) = true ->
  App.match_parts (App.segments rule) (App.segments path) = Some args ->
  path = rule /\ args = [].
Proof.
  intros Hlit Hm. split.
  - rewrite <- (join_segments path), <- (join_segments rule).
    f_equal. eapply match_parts_literal; eassumption.
  - eapply match_parts_literal_args; eassumption.
Qed.

Lemma decimal_range cp d : Datetime.decimal cp = Some d -> 0 <= d <= 9.
Proof.
  unfold Datetime.decimal.
  destruct (List.find _ Datetime.decimal_zeros) as [zero|] eqn:Hz;
    [|discriminate].
  apply find_some in Hz. destruct Hz as [_ Hz]. intros [= <-].
  apply andb_true_iff in Hz. destruct Hz as [H1 H2].
  apply N.leb_le in H1, H2. lia.
Qed.

Lemma int_of_digits_nonneg digits acc n :
  0 <= acc -> App.int_of_digits digits acc = Some n -> 0 <= n.
Proof.
  revert acc. induction digits as [|cp digits IH]; intros acc Hacc; simpl.
  - intros [= <-]. exact Hacc.
  - destruct (Datetime.decimal cp) as [d|] eqn:Hd; [|discriminate].
    apply IH. apply decimal_range in Hd. lia.
Qed.

Lemma int_converter_nonneg s n : App.int_converter s = Some n -> 0 <= n.
Proof.
  unfold App.int_converter. destruct (Utf8.decode s); [discriminate|].
  apply int_of_digits_nonneg. lia.
Qed.

(** Case analysis on a match of concrete rule parts against a path. *)
Ltac crack H :=
  cbn -[String.eqb App.int_converter] in H;
  repeat match type of H with
    | context [String.eqb ?a ?b] =>
        destruct (String.eqb_spec a b); [subst|];
        cbn -[String.eqb App.int_converter] in H
    | context [App.int_converter ?s] =>
        destruct (App.int_converter s) eqn:?;
        cbn -[String.eqb App.int_converter] in H
    end;
  try discriminate H.

(** The two rules with a converter. *)
Lemma details_rule_path path args :
  App.match_parts (App.segments "/job/<int:job_id>") (App.segments path)
  = Some args ->
  exists ds n,
    path = String.append "/job/" ds
    /\ App.int_converter ds = Some n /\ args = [n].
Proof.
  intros Hm. rewrite <- (join_segments path).
  destruct (App.segments path) as [|a [|b [|ds [|x rest]]]]; crack Hm.
  injection Hm as <-. eauto.
Qed.

Lemma edit_rule_path path args :
  App.match_parts (App.segments "/job/<int:job_id>/edit") (App.segments path)
  = Some args ->
  exists ds n,
    path = String.append "/job/" (String.append ds "/edit")
    /\ App.int_converter ds = Some n /\ args = [n].
Proof.
  intros Hm. rewrite <- (join_segments path).
  destruct (App.segments path) as [|a [|b [|ds [|x [|y rest]]]]]; crack Hm.
  injection Hm as <-. eauto.
Qed.

Lemma static_rule_path path args :
  App.match_parts (App.segments "/static/<path:filename>")
    (App.segments path) = Some args ->
  args = []
  /\ exists filename,
       path = String.append "/static/" filename
       /\ App.path_converter filename = true.
Proof.
  intros Hm. rewrite <- (join_segments path).
  destruct (App.segments path) as [|a [|b [|c rest]]];
    cbn -[String.eqb App.path_converter Py.join] in Hm;
    try discriminate Hm.
  - destruct (String.eqb "" a); discriminate Hm.
  - destruct (String.eqb "" a); [|discriminate Hm].
    destruct (String.eqb "static" b); discriminate Hm.
  - destruct (String.eqb_spec "" a) as [<-|]; [|discriminate Hm].
    destruct (String.eqb_spec "static" b) as [<-|]; [|discriminate Hm].
    destruct (App.path_converter (Py.join "/" (c :: rest))) eqn:Hc;
      [|discriminate Hm].
    injection Hm as <-. split; [reflexivity|].
    exists (Py.join "/" (c :: rest)). split; [|exact Hc].
    rewrite !join_cons by discriminate. reflexivity.
Qed.

(** The methods of a rule declared for [GET], or for [GET] and [POST]. *)
Lemma declared_get m :
  existsb (App.method_eqb m)
    (App.methods (App.add_url_rule
                    (App.mk_rule "" [Request.GET] App.Home))) = true ->
  m = Request.GET \/ m = Request.HEAD \/ m = Request.OPTIONS.
Proof. destruct m; simpl; auto; discriminate. Qed.

Lemma declared_get_post m :
  existsb (App.method_eqb m)
    (App.methods (App.add_url_rule
                    (App.mk_rule "" [Request.GET; Request.POST] App.Home)))
  = true ->
  JobForm.is_submitted (Request.mk m "" [] [] None) = true ->
  m = Request.POST.
Proof. destruct m; simpl; auto; discriminate. Qed.

(** What a successful routing says about the path, the method and the
    arguments, endpoint by endpoint. *)
Lemma route_found m path ep args :
  App.route m path = App.Found ep args ->
  match ep with
  | App.Home => path = "/" /\ args = []
  | App.Jobs => path = "/jobs" /\ args = []
  | App.AddJob =>
      path = "/add-job" /\ args = []
      /\ (JobForm.is_submitted (Request.mk m "" [] [] None) = true ->
          m = Request.POST)
  | App.JobDetails =>
      exists ds n, path = String.append "/job/" ds
                   /\ App.int_converter ds = Some n /\ args = [n]
  | App.JobEdit =>
      (exists ds n, path = String.append "/job/" (String.append ds "/edit")
                    /\ App.int_converter ds = Some n /\ args = [n])
      /\ (JobForm.is_submitted (Request.mk m "" [] [] None) = true ->
          m = Request.POST)
  | App.TestPage => path = "/testpage" /\ args = []
  | App.HealthLive => path = "/healthz/live" /\ args = []
  | App.HealthReadiness => path = "/healthz/readiness" /\ args = []
  | App.Static =>
      args = []
      /\ exists filename,
           path = String.append "/static/" filename
           /\ App.path_converter filename = true
  end.
Proof.
  intros H. apply route_in_found in H.
  destruct H as [r [Hin [Hep [Hm Hmeth]]]].
  unfold App.url_map in Hin. simpl in Hin.
  repeat (destruct Hin as [<-|Hin]); try destruct Hin;
    cbn [App.rule_endpoint App.rule_string App.add_url_rule] in *; subst ep.
  - apply static_rule_path, Hm.
  - apply literal_rule_path in Hm; [exact Hm | reflexivity].
  - apply literal_rule_path in Hm; [exact Hm | reflexivity].
  - apply literal_rule_path in Hm; [|reflexivity].
    destruct Hm. auto using declared_get_post.
  - apply details_rule_path, Hm.
  - split; [apply edit_rule_path, Hm | apply declared_get_post, Hmeth].
  - apply literal_rule_path in Hm; [exact Hm | reflexivity].
  - apply literal_rule_path in Hm; [exact Hm | reflexivity].
  - apply literal_rule_path in Hm; [exact Hm | reflexivity].
Qed.

(** A request that is no submission leaves the table to every view. *)
Lemma call_view_reads e req ep args rows :
  JobForm.is_submitted req = false ->
  snd (App.call_view e req ep args rows) = rows.
Proof.
  intros Hsub. unfold App.call_view.
  destruct ep; destruct args as [|a [|b args]]; try reflexivity.
  - unfold App.add_job, JobForm.validate_on_submit. rewrite Hsub.
    reflexivity.
  - unfold App.job_details, Db.get_or_404.
    destruct (Db.get a rows); [|destruct (Db.int64 a)]; reflexivity.
  - unfold App.job_edit, Db.get_or_404, JobForm.validate_on_submit.
    rewrite Hsub.
    destruct (Db.get a rows); [|destruct (Db.int64 a)]; reflexivity.
  - unfold App.health_readiness.
    destruct (App.select_1 e) as [|exc]; [reflexivity|].
    destruct (App.isinstance_Exception exc); reflexivity.
Qed.

End Dispatch.

(** X6. Dispatch hands Details and Edit exactly one id, never negative,
    under every method that reaches them, and no converted argument to
    the seven views the module declares without one. *)
Theorem routed_arguments (m : Request.http_method) (path : string)
    (ep : App.endpoint) (args : list Z) :
  App.route m path = App.Found ep args ->
  match ep with
  | App.JobDetails | App.JobEdit => exists n, args = [n] /\ 0 <= n
  | App.Static => True
  | _ => args = []
  end.
Proof.
  intros H. apply route_found in H. destruct ep; try tauto.
  - destruct H as (ds & n & _ & Hn & ->). exists n.
    split; [reflexivity | eapply int_converter_nonneg, Hn].
  - destruct H as [(ds & n & _ & Hn & ->) _]. exists n.
    split; [reflexivity | eapply int_converter_nonneg, Hn].
Qed.

Lemma routed_arguments_witness :
  App.route Request.HEAD "/job/37/edit" = App.Found App.JobEdit [37]
  /\ exists n, [37] = [n] /\ 0 <= n.
Proof.
  split; [reflexivity|].
  exact (routed_arguments Request.HEAD "/job/37/edit" App.JobEdit [37]
           eq_refl).
Defined.

(** X7. The table changes only under a POST to [/add-job] or to
    [/job/<id>/edit] for an id that a record has: no GET, no other
    method and no other path writes. *)
Theorem only_submissions_write (e : App.env) (req : Request.t)
    (rows : Db.table) :
  snd (App.handle e req rows) <> rows ->
  Request.method req = Request.POST
  /\ (Request.path req = "/add-job"
      \/ exists ds n,
           Request.path req
           = String.append "/job/" (String.append ds "/edit")
           /\ App.int_converter ds = Some n
           /\ Db.get n rows <> None).
Proof.
  intros Hw.
  destruct (JobForm.is_submitted req) eqn:Hsub.
  2:{ contradiction Hw.
      destruct (handle_table e req rows) as [->|(ep & args & ->)];
        [reflexivity | apply call_view_reads, Hsub]. }
  unfold App.handle in Hw.
  destruct (App.route _ _) as [ep args| |] eqn:Hroute;
    [|contradiction Hw; reflexivity ..].
  apply route_found in Hroute.
  assert (Hview : snd (App.call_view e req ep args rows) <> rows).
  { intros Heq. apply Hw.
    destruct (Request.method req); try exact Heq; reflexivity. }
  assert (Hpost : (JobForm.is_submitted
                     (Request.mk (Request.method req) "" [] [] None) = true ->
                   Request.method req = Request.POST) ->
                  Request.method req = Request.POST).
  { intros H. apply H. exact Hsub. }
  clear Hw. unfold App.call_view in Hview.
  destruct ep.
  - destruct Hroute as [_ ->]. contradiction Hview; reflexivity.
  - destruct Hroute as [_ ->]. contradiction Hview; reflexivity.
  - destruct Hroute as (Hpath & -> & Hm). auto.
  - destruct Hroute as (ds & n & _ & _ & ->).
    contradiction Hview. unfold App.job_details, Db.get_or_404.
    destruct (Db.get n rows); [|destruct (Db.int64 n)]; reflexivity.
  - destruct Hroute as [(ds & n & Hpath & Hn & ->) Hm].
    split; [auto|]. right. exists ds, n. repeat split; auto.
    intros Hnone. apply Hview.
    unfold App.job_edit, Db.get_or_404. rewrite Hnone.
    destruct (Db.int64 n); reflexivity.
  - destruct Hroute as [_ ->]. contradiction Hview; reflexivity.
  - destruct Hroute as [_ ->]. contradiction Hview; reflexivity.
  - destruct Hroute as [_ ->]. contradiction Hview.
    unfold App.health_readiness.
    destruct (App.select_1 e) as [|exc]; [reflexivity|].
    destruct (App.isinstance_Exception exc); reflexivity.
  - destruct Hroute as [-> _]. contradiction Hview; reflexivity.
Qed.

Lemma only_submissions_write_witness :
  snd (App.handle Sample.env (Sample.post "/job/1/edit" Sample.rejection_form)
         Sample.three_rows) <> Sample.three_rows
  /\ Request.method (Sample.post "/job/1/edit" Sample.rejection_form)
     = Request.POST
  /\ (Request.path (Sample.post "/job/1/edit" Sample.rejection_form)
      = "/add-job"
      \/ exists ds n,
           Request.path (Sample.post "/job/1/edit" Sample.rejection_form)
           = String.append "/job/" (String.append ds "/edit")
           /\ App.int_converter ds = Some n
           /\ Db.get n Sample.three_rows <> None).
Proof.
  assert (Hw : snd (App.handle Sample.env
                      (Sample.post "/job/1/edit" Sample.rejection_form)
                      Sample.three_rows) <> Sample.three_rows).
  { intros H. vm_compute in H. discriminate H. }
  split; [exact Hw|].
  exact (only_submissions_write Sample.env _ Sample.three_rows Hw).
Defined.

(* ===================================================================== *)
(** ** The form in the views *)
(* ===================================================================== *)

Section FormViews.

Variable e : App.env.

Lemma no_errors_nil {A} (f : JobForm.field A) :
  JobForm.no_errors f = true <-> JobForm.errors f = [].
Proof.
  unfold JobForm.no_errors. destruct (JobForm.errors f); split;
    intros H; try reflexivity; discriminate H.
Qed.

Lemma submitted_validate req :
  JobForm.is_submitted req = true ->
  JobForm.validate_on_submit req (JobForm.bind (App.today e) req)
  = (JobForm.validate req (JobForm.bind (App.today e) req),
     JobForm.ok (JobForm.validate req (JobForm.bind (App.today e) req))).
Proof. intros H. unfold JobForm.validate_on_submit. rewrite H. reflexivity. Qed.

Lemma not_submitted_validate req :
  JobForm.is_submitted req = false ->
  JobForm.validate_on_submit req (JobForm.bind (App.today e) req)
  = (JobForm.bind (App.today e) req, false).
Proof. intros H. unfold JobForm.validate_on_submit. rewrite H. reflexivity. Qed.

End FormViews.

(** X8. Add accepts exactly the submissions that are not rejected: a
    submitted request is answered by the redirect to the list, with one
    row more in the table, if and only if its token is good, its company
    and position are not blank, its status and resume_used are values of
    their enumerations, and its application_date, if sent, is a date. *)
Theorem add_redirects_iff_not_rejected (e : App.env) (req : Request.t)
    (rows : Db.table) :
  JobForm.is_submitted req = true ->
  (fst (App.add_job e req rows) = App.redirect App.url_for_jobs
   <-> ~ rejected req)
  /\ (length (snd (App.add_job e req rows)) = S (length rows)
      <-> ~ rejected req).
Proof.
  intros Hsub.
  assert (Hno : rejected req ->
                fst (App.add_job e req rows) <> App.redirect App.url_for_jobs
                /\ length (snd (App.add_job e req rows)) <> S (length rows)).
  { intros Hrej. destruct (add_job_rejected e req rows Hrej) as [form ->].
    cbn [fst snd]. split; [discriminate | lia]. }
  assert (Hyes : ~ rejected req ->
                 fst (App.add_job e req rows) = App.redirect App.url_for_jobs
                 /\ length (snd (App.add_job e req rows)) = S (length rows)).
  { intros Hok. pose proof (not_rejected_validates e req Hsub Hok) as Hv.
    unfold App.add_job.
    destruct (JobForm.validate_on_submit _ _) as [form valid] eqn:Hval.
    cbn [snd] in Hv. subst valid.
    destruct (validated_checked e _ _ Hval) as (d & s & c & p & r & Hchk).
    unfold Db.add_commit. rewrite (chk_values _ _ _ _ _ _ _ _ Hchk).
    cbn [fst snd]. rewrite length_app. simpl. split; [reflexivity | lia]. }
  split; split; intros H.
  - intros Hrej. apply Hno in Hrej. tauto.
  - apply Hyes, H.
  - intros Hrej. apply Hno in Hrej. tauto.
  - apply Hyes, H.
Qed.

Lemma add_redirects_iff_not_rejected_witness :
  JobForm.is_submitted (Sample.post "/add-job" Sample.blank_company_form)
  = true
  /\ (fst (App.add_job Sample.env
             (Sample.post "/add-job" Sample.blank_company_form) [])
      = App.redirect App.url_for_jobs
      <-> ~ rejected (Sample.post "/add-job" Sample.blank_company_form))
  /\ (length (snd (App.add_job Sample.env
                     (Sample.post "/add-job" Sample.blank_company_form) []))
      = 1%nat
      <-> ~ rejected (Sample.post "/add-job" Sample.blank_company_form)).
Proof.
  split; [reflexivity|].
  exact (add_redirects_iff_not_rejected Sample.env
           (Sample.post "/add-job" Sample.blank_company_form) [] eq_refl).
Defined.

(** X10. When Add turns a submission down, the form it renders again
    holds what was sent, field by field, and marks exactly the offending
    fields: company and position when absent or blank, status and
    resume_used when absent or outside their enumerations, the date when
    one was sent that does not parse; the four optional fields never. *)
Theorem rejected_form_keeps_values (e : App.env) (req : Request.t)
    (rows : Db.table) :
  JobForm.is_submitted req = true ->
  rejected req ->
  exists form,
    App.add_job e req rows
    = (App.render_template "add_job.html" (App.add_job_ctx form), rows)
    /\ (JobForm.data (JobForm.status form)
        = MultiDict.get "status" (Request.form req)
        /\ JobForm.data (JobForm.company form)
           = MultiDict.get "company" (Request.form req)
        /\ JobForm.data (JobForm.position form)
           = MultiDict.get "position" (Request.form req)
        /\ JobForm.data (JobForm.resume_used form)
           = MultiDict.get "resume_used" (Request.form req)
        /\ JobForm.data (JobForm.job_url form)
           = MultiDict.get "job_url" (Request.form req)
        /\ JobForm.data (JobForm.job_description form)
           = MultiDict.get "job_description" (Request.form req)
        /\ JobForm.data (JobForm.notes form)
           = MultiDict.get "notes" (Request.form req)
        /\ JobForm.data (JobForm.salary form)
           = MultiDict.get "salary" (Request.form req)
        /\ JobForm.raw_data (JobForm.application_date form)
           = MultiDict.getlist "application_date" (Request.form req))
    /\ (JobForm.errors (JobForm.company form) = []
        <-> ~ absent_or_blank "company" (Request.form req))
    /\ (JobForm.errors (JobForm.position form) = []
        <-> ~ absent_or_blank "position" (Request.form req))
    /\ (JobForm.errors (JobForm.status form) = []
        <-> ~ absent_or_foreign STATUS_CHOICES "status" (Request.form req))
    /\ (JobForm.errors (JobForm.resume_used form) = []
        <-> ~ absent_or_foreign RESUME_CHOICES "resume_used"
                (Request.form req))
    /\ (JobForm.errors (JobForm.application_date form) = []
        <-> (MultiDict.getlist "application_date" (Request.form req) = []
             \/ Datetime.strptime
                  (Py.join " "
                     (MultiDict.getlist "application_date"
                        (Request.form req))) <> None))
    /\ JobForm.errors (JobForm.job_url form) = []
    /\ JobForm.errors (JobForm.job_description form) = []
    /\ JobForm.errors (JobForm.notes form) = []
    /\ JobForm.errors (JobForm.salary form) = [].
Proof.
  intros Hsub Hrej.
  pose proof (rejected_fails e _ Hrej) as Hfail.
  exists (JobForm.validate req (JobForm.bind (App.today e) req)).
  split.
  { unfold App.add_job. rewrite (submitted_validate e _ Hsub) in *.
    cbn [snd] in Hfail. rewrite Hfail. reflexivity. }
  unfold JobForm.validate, JobForm.bind.
  cbn [JobForm.application_date JobForm.status JobForm.company
       JobForm.position JobForm.resume_used JobForm.job_url
       JobForm.job_description JobForm.notes JobForm.salary].
  rewrite <- !no_errors_nil.
  rewrite date_verdict, select_verdict, !required_text_verdict,
    required_select_verdict, !optional_verdict.
  rewrite !validate_field_data.
  unfold JobForm.process_text, JobForm.validate_field, JobForm.process_date.
  rewrite !raw_of_wrap, Hsub.
  cbn [JobForm.data JobForm.raw_data].
  unfold absent_or_blank, absent_or_foreign, MultiDict.get.
  split; [|repeat split; try reflexivity].
  - repeat split; try reflexivity.
    destruct (MultiDict.getlist "application_date" (Request.form req));
      [reflexivity|].
    destruct (Datetime.strptime _); reflexivity.
  - destruct (head _) as [s|]; [|discriminate].
    intros H Hb. rewrite Hb in H. discriminate H.
  - destruct (head _) as [s|]; [|tauto].
    intros H. destruct (Py.blank s); [tauto | reflexivity].
  - destruct (head _) as [s|]; [|discriminate].
    intros H Hb. rewrite Hb in H. discriminate H.
  - destruct (head _) as [s|]; [|tauto].
    intros H. destruct (Py.blank s); [tauto | reflexivity].
  - destruct (head _) as [s|]; [|discriminate].
    intros H Hn. apply Hn, choice_enumerated, H.
  - destruct (head _) as [s|]; [|tauto].
    intros H. destruct (existsb _ STATUS_CHOICES) eqn:Hs; [reflexivity|].
    exfalso. apply H. rewrite <- choice_enumerated. congruence.
  - destruct (head _) as [s|]; [|discriminate].
    intros H Hn. apply andb_true_iff in H.
    apply Hn, choice_enumerated, H.
  - destruct (head _) as [s|]; [|tauto].
    intros H. destruct (existsb _ RESUME_CHOICES) eqn:Hs.
    + apply choice_enumerated, resume_is_default in Hs. subst s.
      reflexivity.
    + exfalso. apply H. rewrite <- choice_enumerated. congruence.
  - destruct (MultiDict.getlist "application_date" (Request.form req));
      [auto|].
    destruct (Datetime.strptime _); [intros _; right; discriminate|].
    discriminate.
  - destruct (MultiDict.getlist "application_date" (Request.form req));
      [reflexivity|].
    destruct (Datetime.strptime _); [reflexivity|].
    intros [H|H]; [discriminate H | contradiction H; reflexivity].
Qed.

Lemma rejected_form_keeps_values_witness :
  JobForm.is_submitted (Sample.post "/add-job" Sample.blank_company_form)
  = true
  /\ rejected (Sample.post "/add-job" Sample.blank_company_form)
  /\ exists form,
      App.add_job Sample.env
        (Sample.post "/add-job" Sample.blank_company_form) Sample.three_rows
      = (App.render_template "add_job.html" (App.add_job_ctx form),
         Sample.three_rows)
      /\ JobForm.data (JobForm.company form) = Some "  "
      /\ JobForm.errors (JobForm.company form) <> []
      /\ JobForm.errors (JobForm.position form) = [].
Proof.
  assert (Hrej : rejected (Sample.post "/add-job" Sample.blank_company_form)).
  { right. right. right. left. reflexivity. }
  split; [reflexivity|]. split; [exact Hrej|].
  destruct (rejected_form_keeps_values Sample.env
              (Sample.post "/add-job" Sample.blank_company_form)
              Sample.three_rows eq_refl Hrej)
    as (form & Hadd & Hdata & Hcompany & Hposition & _).
  exists form. split; [exact Hadd|]. split; [apply Hdata|]. split.
  - intros Hnil. apply Hcompany in Hnil. apply Hnil. reflexivity.
  - apply Hposition. intros Hb. discriminate Hb.
Defined.

(** X11. Edit, shown, fills the form with the record's current values
    and leaves the table alone. *)
Theorem edit_show_prefills (e : App.env) (req : Request.t)
    (job_id : Z) (job : Job.t) (rows : Db.table) :
  JobForm.is_submitted req = false ->
  Db.get job_id rows = Some job ->
  exists form,
    App.job_edit e req job_id rows
    = (App.render_template "edit_job.html"
         (App.edit_job_ctx form job job_id), rows)
    /\ JobForm.values form = values_of job.
Proof.
  intros Hsub Hget. unfold App.job_edit, Db.get_or_404.
  rewrite Hget, (not_submitted_validate e _ Hsub), Hsub. cbn [negb].
  eexists. split; reflexivity.
Qed.

Lemma edit_show_prefills_witness :
  JobForm.is_submitted (Sample.get "/job/2/edit" []) = false
  /\ Db.get 2 Sample.three_rows = Some Sample.globex
  /\ exists form,
      App.job_edit Sample.env (Sample.get "/job/2/edit" []) 2
        Sample.three_rows
      = (App.render_template "edit_job.html"
           (App.edit_job_ctx form Sample.globex 2), Sample.three_rows)
      /\ JobForm.values form = values_of Sample.globex.
Proof.
  split; [reflexivity|]. split; [reflexivity|].
  exact (edit_show_prefills Sample.env (Sample.get "/job/2/edit" []) 2
           Sample.globex Sample.three_rows eq_refl eq_refl).
Defined.

(** X12. Add, shown, renders a form without errors whose date is the
    server's day and whose other fields are empty, whatever the request
    carries, and leaves the table alone. *)
Theorem add_show_defaults_to_today (e : App.env) (req : Request.t)
    (rows : Db.table) :
  JobForm.is_submitted req = false ->
  exists form,
    App.add_job e req rows
    = (App.render_template "add_job.html" (App.add_job_ctx form), rows)
    /\ JobForm.values form
       = Db.mk_values (Some (App.today e)) None None None None
           None None None None
    /\ JobForm.ok form = true.
Proof.
  intros Hsub. unfold App.add_job.
  rewrite (not_submitted_validate e _ Hsub).
  eexists. split; [reflexivity|].
  unfold JobForm.bind, JobForm.wrap_formdata. rewrite Hsub.
  split; reflexivity.
Qed.

Lemma add_show_defaults_to_today_witness :
  JobForm.is_submitted (Sample.get "/add-job" [("status", "Interviewing")])
  = false
  /\ exists form,
      App.add_job Sample.env
        (Sample.get "/add-job" [("status", "Interviewing")]) Sample.three_rows
      = (App.render_template "add_job.html" (App.add_job_ctx form),
         Sample.three_rows)
      /\ JobForm.values form
         = Db.mk_values (Some (Datetime.mkdate 2024 3 1)) None None None None
             None None None None
      /\ JobForm.ok form = true.
Proof.
  split; [reflexivity|].
  exact (add_show_defaults_to_today Sample.env
           (Sample.get "/add-job" [("status", "Interviewing")])
           Sample.three_rows eq_refl).
Defined.

(** X13. Of two accepted edits of the same record the last one wins: the
    table after both is the table after the second alone, so an edit
    submitted twice changes nothing the second time. *)
Theorem last_edit_wins (e1 e2 : App.env) (req1 req2 : Request.t)
    (job_id : Z) (job : Job.t) (rows : Db.table)
    (d1 d2 : Datetime.date) (s1 c1 p1 r1 s2 c2 p2 r2 : string) :
  Db.get job_id rows = Some job ->
  accepted req1 d1 s1 c1 p1 r1 ->
  accepted req2 d2 s2 c2 p2 r2 ->
  App.job_edit e2 req2 job_id (snd (App.job_edit e1 req1 job_id rows))
  = App.job_edit e2 req2 job_id rows.
Proof.
  intros Hget H1 H2.
  rewrite (job_edit_accepted e1 _ _ _ _ _ _ _ _ _ Hget H1). cbn [snd].
  assert (Hget' :
            Db.get job_id
              (map (fun row =>
                      if Job.id row =? job_id
                      then stored (Job.id row) d1 s1 c1 p1 r1
                             (Request.form req1) (Job.created_at row)
                      else row) rows)
            = Some (stored (Job.id job) d1 s1 c1 p1 r1 (Request.form req1)
                      (Job.created_at job))).
  { rewrite (get_updated
               (fun row => stored (Job.id row) d1 s1 c1 p1 r1
                             (Request.form req1) (Job.created_at row)))
      by reflexivity.
    rewrite Z.eqb_refl, Hget. reflexivity. }
  rewrite (job_edit_accepted e2 _ _ _ _ _ _ _ _ _ Hget' H2).
  rewrite (job_edit_accepted e2 _ _ _ _ _ _ _ _ _ Hget H2).
  f_equal. rewrite map_map. apply map_ext. intros row.
  destruct (Job.id row =? job_id) eqn:Hid; cbn [stored Job.id Job.created_at];
    rewrite Hid; reflexivity.
Qed.

Lemma last_edit_wins_witness :
  Db.get 1 Sample.three_rows = Some Sample.acme
  /\ accepted (Sample.post "/job/1/edit" Sample.acme_form)
       (Datetime.mkdate 2024 1 15) "Interviewing" "Acme" "Engineer"
       "Default Resume"
  /\ accepted (Sample.post "/job/1/edit" Sample.rejection_form)
       (Datetime.mkdate 2024 1 15) "Rejected Application" "Acme" "Engineer"
       "Default Resume"
  /\ App.job_edit Sample.env (Sample.post "/job/1/edit" Sample.rejection_form)
       1 (snd (App.job_edit Sample.env
                 (Sample.post "/job/1/edit" Sample.acme_form) 1
                 Sample.three_rows))
     = App.job_edit Sample.env
         (Sample.post "/job/1/edit" Sample.rejection_form) 1
         Sample.three_rows.
Proof.
  assert (H1 : accepted (Sample.post "/job/1/edit" Sample.acme_form)
                 (Datetime.mkdate 2024 1 15) "Interviewing" "Acme" "Engineer"
                 "Default Resume") by accept_sample.
  assert (H2 : accepted (Sample.post "/job/1/edit" Sample.rejection_form)
                 (Datetime.mkdate 2024 1 15) "Rejected Application" "Acme"
                 "Engineer" "Default Resume") by accept_sample.
  split; [reflexivity|]. split; [exact H1|]. split; [exact H2|].
  exact (last_edit_wins Sample.env Sample.env _ _ 1 Sample.acme
           Sample.three_rows _ _ _ _ _ _ _ _ _ _ eq_refl H1 H2).
Defined.

(* ===================================================================== *)
(** ** Redirects *)
(* ===================================================================== *)

Section UrlFor.

(** The [int] converter reads back what [str] prints. *)
Ltac read_digit :=
  cbn [NilEmpty.string_of_uint Utf8.decode_from];
  match goal with
  | |- context [Utf8.lead ?b] =>
      let r := eval vm_compute in (Utf8.lead b) in
      change (Utf8.lead b) with r
  end;
  cbv beta iota zeta; cbn [App.int_of_digits];
  match goal with
  | |- context [Datetime.decimal ?cp] =>
      let r := eval vm_compute in (Datetime.decimal cp) in
      change (Datetime.decimal cp) with r
  end;
  cbv beta iota.

Lemma int_of_digits_acc u acc :
  App.int_of_digits (Utf8.decode_from 0 0 0 (NilEmpty.string_of_uint u))
    (Z.pos acc)
  = Some (Z.pos (Pos.of_uint_acc u acc)).
Proof.
  revert acc.
  induction u as [|u IH|u IH|u IH|u IH|u IH|u IH|u IH|u IH|u IH|u IH];
    intros acc; [reflexivity|..];
    read_digit; cbn [Pos.of_uint_acc];
    rewrite <- IH; f_equal; lia.
Qed.

Lemma int_of_digits_uint u :
  App.int_of_digits (Utf8.decode_from 0 0 0 (NilEmpty.string_of_uint u)) 0
  = Some (Z.of_N (Pos.of_uint u)).
Proof.
  induction u as [|u IH|u IH|u IH|u IH|u IH|u IH|u IH|u IH|u IH|u IH];
    [reflexivity | read_digit; exact IH |..];
    read_digit; cbn [Pos.of_uint Z.of_N];
    rewrite <- int_of_digits_acc; f_equal.
Qed.

Lemma decode_uint_nonempty u :
  u <> Decimal.Nil ->
  Utf8.decode_from 0 0 0 (NilEmpty.string_of_uint u) <> [].
Proof. destruct u; [congruence | discriminate ..]. Qed.

Lemma int_converter_str n : 0 <= n -> App.int_converter (Urls.str n) = Some n.
Proof.
  intros Hn. destruct n as [|p|p]; [reflexivity | | lia].
  unfold Urls.str, Z.to_int, NilEmpty.string_of_int, App.int_converter,
    Utf8.decode.
  pose proof (decode_uint_nonempty _ (Unsigned.to_uint_nonnil p)) as Hne.
  destruct (Utf8.decode_from 0 0 0 (NilEmpty.string_of_uint (Pos.to_uint p)))
    eqn:Hs; [congruence|].
  rewrite <- Hs, int_of_digits_uint, Unsigned.of_to. reflexivity.
Qed.

(** A printed number has no slash: it is one part of a path. *)
Lemma segments_uint u :
  u <> Decimal.Nil ->
  App.segments (NilEmpty.string_of_uint u) = [NilEmpty.string_of_uint u].
Proof.
  induction u as [|u IH|u IH|u IH|u IH|u IH|u IH|u IH|u IH|u IH|u IH];
    intros Hne; [congruence|..];
    cbn [NilEmpty.string_of_uint App.segments Ascii.eqb Bool.eqb];
    (destruct u; [reflexivity | rewrite IH by discriminate; reflexivity ..]).
Qed.

Lemma segments_str n : 0 <= n -> App.segments (Urls.str n) = [Urls.str n].
Proof.
  intros Hn. destruct n as [|p|p]; [reflexivity | | lia].
  apply segments_uint, Unsigned.to_uint_nonnil.
Qed.

End UrlFor.

Lemma route_details_url job_id :
  0 <= job_id ->
  App.route Request.GET (Urls.url_for (App.url_for_job_details job_id))
  = App.Found App.JobDetails [job_id].
Proof.
  intros Hid.
  assert (Hparts : App.segments
                      (Urls.url_for (App.url_for_job_details job_id))
                    = [""; "job"; Urls.str job_id]).
  { unfold Urls.url_for. cbv [String.append].
    cbn [App.segments Ascii.eqb Bool.eqb].
    rewrite (segments_str _ Hid). reflexivity. }
  unfold App.route, App.url_map, App.decorated, App.static_rule.
  cbn [map App.add_url_rule App.route_in App.rule_string App.methods
       App.rule_endpoint].
  rewrite Hparts.
  cbn -[App.int_converter Urls.str].
  rewrite (int_converter_str _ Hid). reflexivity.
Qed.

(** X14. The URLs the views redirect to lead back into the application:
    [url_for('jobs')] is routed to the list, and for every id from 0 up
    [url_for('job_details', job_id=id)] is routed to Details with that
    same id. *)
Theorem url_for_is_routed (job_id : Z) :
  0 <= job_id ->
  App.route Request.GET (Urls.url_for App.url_for_jobs) = App.Found App.Jobs []
  /\ App.route Request.GET (Urls.url_for (App.url_for_job_details job_id))
     = App.Found App.JobDetails [job_id].
Proof.
  intros Hid. split; [reflexivity | apply route_details_url, Hid].
Qed.

Lemma url_for_is_routed_witness :
  0 <= 1204
  /\ App.route Request.GET "/jobs" = App.Found App.Jobs []
  /\ App.route Request.GET "/job/1204" = App.Found App.JobDetails [1204].
Proof.
  assert (H : 0 <= 1204) by lia.
  split; [exact H|].
  exact (url_for_is_routed 1204 H).
Defined.

(** X15. Following the redirect of an accepted submission shows its
    result: after Edit, the Details page of the record with the submitted
    values; after Add, the list, sorted, with the new record in it. *)
Theorem redirect_shows_the_result (e e' : App.env) (req : Request.t)
    (rows : Db.table) (d : Datetime.date) (s c p r : string) :
  accepted req d s c p r ->
  (exists target rows' listed,
      App.add_job e req rows = (App.redirect target, rows')
      /\ App.handle e' (Urls.follow target) rows'
         = (App.render_template "jobs.html" (App.jobs_ctx listed), rows')
      /\ Permutation listed rows'
      /\ In (stored (Db.next_rowid rows) d s c p r (Request.form req)
               (Some (App.now e))) listed)
  /\ (forall job_id job,
         0 <= job_id ->
         Db.get job_id rows = Some job ->
         exists target rows',
           App.job_edit e req job_id rows = (App.redirect target, rows')
           /\ App.handle e' (Urls.follow target) rows'
              = (App.render_template "job_details.html"
                   (App.job_details_ctx
                      (stored job_id d s c p r (Request.form req)
                         (Job.created_at job)) job_id),
                 rows')).
Proof.
  intros H. split.
  - eexists; eexists; eexists.
    split; [apply add_job_accepted, H|].
    split; [reflexivity|].
    split; [apply order_by_perm|].
    eapply Permutation_in; [symmetry; apply order_by_perm|].
    apply in_or_app. right. left. reflexivity.
  - intros job_id job Hid Hget. eexists; eexists.
    split; [eapply job_edit_accepted; eassumption|].
    unfold App.handle, Urls.follow.
    cbn [Request.method Request.path].
    rewrite (route_details_url _ Hid).
    cbn [App.call_view]. unfold App.job_details, Db.get_or_404.
    rewrite (get_updated
               (fun row => stored (Job.id row) d s c p r (Request.form req)
                             (Job.created_at row)))
      by reflexivity.
    rewrite Z.eqb_refl, Hget. cbn [option_map].
    destruct (get_Some _ _ _ Hget) as [_ ->]. reflexivity.
Qed.

Lemma redirect_shows_the_result_witness :
  accepted (Sample.post "/job/1/edit" Sample.rejection_form)
    (Datetime.mkdate 2024 1 15) "Rejected Application" "Acme" "Engineer"
    "Default Resume"
  /\ exists target rows',
      App.job_edit Sample.env
        (Sample.post "/job/1/edit" Sample.rejection_form) 1 Sample.three_rows
      = (App.redirect target, rows')
      /\ App.handle Sample.env (Urls.follow target) rows'
         = (App.render_template "job_details.html"
              (App.job_details_ctx
                 (Job.mk 1 (Datetime.mkdate 2024 1 15) "Rejected Application"
                    "Acme" "Engineer" "Default Resume" None None
                    (Some "No interview") None (Some 1709283600)) 1),
            rows').
Proof.
  assert (Hacc : accepted (Sample.post "/job/1/edit" Sample.rejection_form)
                   (Datetime.mkdate 2024 1 15) "Rejected Application" "Acme"
                   "Engineer" "Default Resume") by accept_sample.
  split; [exact Hacc|].
  assert (Hid : 0 <= 1) by lia.
  exact (proj2 (redirect_shows_the_result Sample.env Sample.env _
                  Sample.three_rows _ _ _ _ _ Hacc)
           1 Sample.acme Hid eq_refl).
Defined.

(* ===================================================================== *)
(** ** Dashboard and list, continued *)
(* ===================================================================== *)

Section Totals.

Lemma default_count rows s :
  Spec.enumerated STATUS_CHOICES s ->
  default 0%nat (App.count_statuses rows !! s)
  = Db.count (Db.filter_by_status s rows).
Proof.
  intros Hs. rewrite count_statuses_lookup.
  apply choice_enumerated in Hs. rewrite Hs. cbn [andb].
  destruct (0 <? Db.count (Db.filter_by_status s rows))%nat eqn:Hpos;
    [reflexivity|].
  apply Nat.ltb_ge in Hpos. simpl. lia.
Qed.

Lemma count_cons s r rows :
  Db.count (Db.filter_by_status s (r :: rows))
  = ((if String.eqb (Job.status r) s then 1 else 0)
     + Db.count (Db.filter_by_status s rows))%nat.
Proof.
  unfold Db.count, Db.filter_by_status. cbn [List.filter].
  destruct (String.eqb (Job.status r) s); reflexivity.
Qed.

(** Each record is counted under one status. *)
Lemma counts_add_up rows :
  statuses_enumerated rows ->
  length rows
  = list_sum (map (fun ch => Db.count (Db.filter_by_status (fst ch) rows))
                STATUS_CHOICES).
Proof.
  induction 1 as [|r rows Hr _ IH]; [reflexivity|].
  cbn [map STATUS_CHOICES list_sum fold_right fst] in *.
  rewrite !count_cons. cbn [length]. rewrite IH.
  destruct Hr as [Hr|[Hr|[Hr|[Hr|[]]]]]; rewrite <- Hr;
    cbn [fst String.eqb Ascii.eqb Bool.eqb andb]; lia.
Qed.

End Totals.

(** X16. On a table whose statuses are of the enumeration, as every
    reachable table is, the Dashboard's total is the sum of its four
    status counts, a status without entry counting zero. *)
Theorem dashboard_counts_add_up (rows : Db.table) :
  statuses_enumerated rows ->
  exists recent statuses,
    App.home rows
    = (App.render_template "dashboard.html"
         (App.dashboard_ctx (length rows) recent statuses), rows)
    /\ length rows
       = list_sum (map (fun ch => default 0%nat (statuses !! fst ch))
                     STATUS_CHOICES).
Proof.
  intros Henum. unfold App.home. eexists; eexists. split; [reflexivity|].
  rewrite (counts_add_up _ Henum). f_equal.
  apply map_ext_in. intros ch Hch. symmetry. apply default_count.
  apply in_map, Hch.
Qed.

Lemma dashboard_counts_add_up_witness :
  statuses_enumerated Sample.three_rows
  /\ exists recent statuses,
      App.home Sample.three_rows
      = (App.render_template "dashboard.html"
           (App.dashboard_ctx 3 recent statuses), Sample.three_rows)
      /\ 3%nat
         = list_sum (map (fun ch => default 0%nat (statuses !! fst ch))
                       STATUS_CHOICES).
Proof.
  assert (Henum : statuses_enumerated Sample.three_rows).
  { repeat constructor; vm_compute; tauto. }
  split; [exact Henum|].
  exact (dashboard_counts_add_up Sample.three_rows Henum).
Defined.

Section Newest.

(** A row later than every row of a table sorts to the front, wherever
    in the table it stands last. *)
Lemma order_by_newest rows job :
  Forall (later_than (Job.application_date job)) rows ->
  Db.order_by_application_date_desc (rows ++ [job])
  = job :: Db.order_by_application_date_desc rows.
Proof.
  induction 1 as [|r rows Hr _ IH]; [reflexivity|].
  cbn [app Db.order_by_application_date_desc]. rewrite IH.
  cbn [Db.place]. unfold later_than in Hr. rewrite Hr. reflexivity.
Qed.

End Newest.

(** X17. A record added with a date later than that of every record in
    the table comes first: the unfiltered list after the Add is the new
    record followed by the list before it, and the new record heads the
    Dashboard's recent list. *)
Theorem newest_record_comes_first (e : App.env) (req q : Request.t)
    (rows : Db.table) (d : Datetime.date) (s c p r : string) :
  accepted req d s c p r ->
  Forall (later_than d) rows ->
  MultiDict.get "status" (Request.args q) = None ->
  exists rows' before recent statuses,
    App.add_job e req rows = (App.redirect App.url_for_jobs, rows')
    /\ App.jobs q rows
       = (App.render_template "jobs.html" (App.jobs_ctx before), rows)
    /\ App.jobs q rows'
       = (App.render_template "jobs.html"
            (App.jobs_ctx
               (stored (Db.next_rowid rows) d s c p r (Request.form req)
                  (Some (App.now e)) :: before)), rows')
    /\ App.home rows'
       = (App.render_template "dashboard.html"
            (App.dashboard_ctx (S (length rows))
               (stored (Db.next_rowid rows) d s c p r (Request.form req)
                  (Some (App.now e)) :: recent) statuses), rows').
Proof.
  intros H Hlater Hq. eexists; eexists; eexists; eexists.
  split; [apply add_job_accepted, H|].
  unfold App.jobs, App.home. rewrite Hq.
  split; [reflexivity|].
  rewrite order_by_newest by exact Hlater.
  split; [reflexivity|].
  unfold Db.count, Db.limit. rewrite length_app, Nat.add_1_r.
  cbn [firstn]. reflexivity.
Qed.

Lemma newest_record_comes_first_witness :
  accepted (Sample.post "/add-job" Sample.hooli_form)
    (Datetime.mkdate 2024 3 5) "Waiting for Response" "Hooli" "Architect"
    "Default Resume"
  /\ Forall (later_than (Datetime.mkdate 2024 3 5)) Sample.three_rows
  /\ MultiDict.get "status" (Request.args (Sample.get "/jobs" [])) = None
  /\ exists rows' before recent statuses,
      App.add_job Sample.env (Sample.post "/add-job" Sample.hooli_form)
        Sample.three_rows
      = (App.redirect App.url_for_jobs, rows')
      /\ App.jobs (Sample.get "/jobs" []) Sample.three_rows
         = (App.render_template "jobs.html" (App.jobs_ctx before),
            Sample.three_rows)
      /\ App.jobs (Sample.get "/jobs" []) rows'
         = (App.render_template "jobs.html"
              (App.jobs_ctx
                 (Job.mk 4 (Datetime.mkdate 2024 3 5) "Waiting for Response"
                    "Hooli" "Architect" "Default Resume" None None None
                    (Some "120k") (Some 1709283600) :: before)), rows')
      /\ App.home rows'
         = (App.render_template "dashboard.html"
              (App.dashboard_ctx 4
                 (Job.mk 4 (Datetime.mkdate 2024 3 5) "Waiting for Response"
                    "Hooli" "Architect" "Default Resume" None None None
                    (Some "120k") (Some 1709283600) :: recent) statuses),
            rows').
Proof.
  assert (Hacc : accepted (Sample.post "/add-job" Sample.hooli_form)
                   (Datetime.mkdate 2024 3 5) "Waiting for Response" "Hooli"
                   "Architect" "Default Resume") by accept_sample.
  assert (Hlater : Forall (later_than (Datetime.mkdate 2024 3 5))
                     Sample.three_rows).
  { repeat constructor. }
  split; [exact Hacc|]. split; [exact Hlater|]. split; [reflexivity|].
  exact (newest_record_comes_first Sample.env _ (Sample.get "/jobs" [])
           Sample.three_rows _ _ _ _ _ Hacc Hlater eq_refl).
Defined.

(** X18. On a table whose statuses are of the enumeration, filtering the
    list by a non-empty string that is no status of the enumeration gives
    the empty list, rendered as any other. *)
Theorem foreign_filter_lists_nothing (req : Request.t) (rows : Db.table)
    (s : string) :
  statuses_enumerated rows ->
  MultiDict.get "status" (Request.args req) = Some s ->
  s <> "" ->
  ~ Spec.enumerated STATUS_CHOICES s ->
  App.jobs req rows
  = (App.render_template "jobs.html" (App.jobs_ctx []), rows).
Proof.
  intros Henum Hs Hne Hforeign. unfold App.jobs. rewrite Hs.
  destruct s as [|ch s']; [congruence|]. cbn [Py.truthy].
  assert (Hnone : Db.filter_by_status (String ch s') rows = []).
  { unfold Db.filter_by_status.
    induction Henum as [|r rows Hr _ IH]; [reflexivity|].
    cbn [List.filter].
    destruct (String.eqb_spec (Job.status r) (String ch s')) as [Heq|_];
      [|exact IH].
    rewrite <- Heq in Hforeign. contradiction. }
  rewrite Hnone. reflexivity.
Qed.

Lemma foreign_filter_lists_nothing_witness :
  statuses_enumerated Sample.three_rows
  /\ MultiDict.get "status" [("status", "Offer")] = Some "Offer"
  /\ "Offer" <> ""
  /\ ~ Spec.enumerated STATUS_CHOICES "Offer"
  /\ App.jobs (Sample.get "/jobs" [("status", "Offer")]) Sample.three_rows
     = (App.render_template "jobs.html" (App.jobs_ctx []), Sample.three_rows).
Proof.
  assert (Henum : statuses_enumerated Sample.three_rows).
  { repeat constructor; vm_compute; tauto. }
  assert (Hne : "Offer" <> "") by discriminate.
  assert (Hf : ~ Spec.enumerated STATUS_CHOICES "Offer").
  { intros [H|[H|[H|[H|[]]]]]; discriminate H. }
  split; [exact Henum|]. split; [reflexivity|]. split; [exact Hne|].
  split; [exact Hf|].
  exact (foreign_filter_lists_nothing
           (Sample.get "/jobs" [("status", "Offer")]) Sample.three_rows
           "Offer" Henum eq_refl Hne Hf).
Defined.

Section Resubmission.

Lemma max_rowid_app rows job :
  Db.max_rowid (rows ++ [job])
  = Some (match Db.max_rowid rows with
          | None => Job.id job
          | Some m => Z.max m (Job.id job)
          end).
Proof.
  induction rows as [|x rows IH]; [reflexivity|].
  cbn [app Db.max_rowid]. rewrite IH.
  destruct (Db.max_rowid rows) as [m|]; f_equal; lia.
Qed.

(** After an insert the next rowid is one more. *)
Lemma next_rowid_app rows job :
  Job.id job = Db.next_rowid rows ->
  Db.next_rowid (rows ++ [job]) = Db.next_rowid rows + 1.
Proof.
  unfold Db.next_rowid. rewrite max_rowid_app.
  destruct (Db.max_rowid rows) as [m|]; intros ->; lia.
Qed.

(** A path some rule matches is routed under [GET] when every rule
    declares [GET]. *)
Lemma route_in_get rules path seen :
  Forall (fun r => existsb (App.method_eqb Request.GET) (App.methods r)
                   = true) rules ->
  (exists r, In r rules
             /\ App.match_parts (App.segments (App.rule_string r))
                  (App.segments path) <> None) ->
  exists ep args, App.route_in rules Request.GET path seen = App.Found ep args.
Proof.
  intros Hget. revert seen.
  induction Hget as [|x rules Hx _ IH]; intros seen [r [Hin Hm]];
    [destruct Hin|].
  cbn [App.route_in].
  destruct (App.match_parts (App.segments (App.rule_string x)) _)
    as [args|] eqn:Hmx.
  - rewrite Hx. eauto.
  - apply IH. destruct Hin as [->|Hin]; [congruence | eauto].
Qed.

(** A request that is not answered 404 matched the path of a rule. *)
Lemma route_in_matched rules m path :
  App.route_in rules m path false <> App.NotFound ->
  exists r, In r rules
            /\ App.match_parts (App.segments (App.rule_string r))
                 (App.segments path) <> None.
Proof.
  induction rules as [|x rules IH]; cbn [App.route_in];
    [intros H; contradiction H; reflexivity|].
  destruct (App.match_parts (App.segments (App.rule_string x)) _)
    as [args|] eqn:Hmx.
  - intros _. exists x. split; [left; reflexivity | congruence].
  - intros H. destruct (IH H) as [r [Hin Hr]]. exists r.
    split; [right; exact Hin | exact Hr].
Qed.

End Resubmission.

(** X19. Add does not recognise a repeated submission: the same accepted
    form sent twice stores two records, equal in every submitted value,
    with consecutive ids. *)
Theorem add_twice_stores_two (e e' : App.env) (req : Request.t)
    (rows : Db.table) (d : Datetime.date) (s c p r : string) :
  accepted req d s c p r ->
  snd (App.add_job e' req (snd (App.add_job e req rows)))
  = rows
    ++ [stored (Db.next_rowid rows) d s c p r (Request.form req)
          (Some (App.now e));
        stored (Db.next_rowid rows + 1) d s c p r (Request.form req)
          (Some (App.now e'))].
Proof.
  intros H. rewrite (add_job_accepted e _ rows _ _ _ _ _ H). cbn [snd].
  rewrite (add_job_accepted e' _ _ _ _ _ _ _ H). cbn [snd].
  rewrite next_rowid_app by reflexivity.
  rewrite <- app_assoc. reflexivity.
Qed.

Lemma add_twice_stores_two_witness :
  accepted (Sample.post "/add-job" Sample.hooli_form)
    (Datetime.mkdate 2024 3 5) "Waiting for Response" "Hooli" "Architect"
    "Default Resume"
  /\ map Job.id
       (snd (App.add_job Sample.env (Sample.post "/add-job" Sample.hooli_form)
               (snd (App.add_job Sample.env
                       (Sample.post "/add-job" Sample.hooli_form)
                       Sample.three_rows))))
     = [1; 2; 3; 4; 5].
Proof.
  assert (Hacc : accepted (Sample.post "/add-job" Sample.hooli_form)
                   (Datetime.mkdate 2024 3 5) "Waiting for Response" "Hooli"
                   "Architect" "Default Resume") by accept_sample.
  split; [exact Hacc|].
  rewrite (add_twice_stores_two Sample.env Sample.env _ Sample.three_rows
             _ _ _ _ _ Hacc).
  reflexivity.
Defined.

(** X20. Every path the application knows answers GET: a request that is
    not turned away with 404, whatever its method, is routed to a view
    when made with GET. *)
Theorem known_paths_answer_get (m : Request.http_method) (path : string) :
  App.route m path <> App.NotFound ->
  exists ep args, App.route Request.GET path = App.Found ep args.
Proof.
  intros H. apply route_in_matched in H.
  apply route_in_get; [|exact H].
  unfold App.url_map. repeat constructor.
Qed.

Lemma known_paths_answer_get_witness :
  App.route Request.DELETE "/job/12" <> App.NotFound
  /\ exists ep args, App.route Request.GET "/job/12" = App.Found ep args.
Proof.
  assert (H : App.route Request.DELETE "/job/12" <> App.NotFound).
  { intros Heq. vm_compute in Heq. discriminate Heq. }
  split; [exact H|].
  exact (known_paths_answer_get Request.DELETE "/job/12" H).
Defined.
